(** * openwater.catchments: the semi-lumped catchment template and the
      catchment linker

    A shallow embedding of [src/openwater/catchments.py] and the properties
    of its three methods: [model_for], [get_template] and [link_catchments]. *)

From Stdlib Require Import Ascii String.
From stdpp Require Import gmap strings list pretty.

Local Open Scope string_scope.
Local Open Scope list_scope.

(** ** Python values, exceptions and %-formatting *)

Module Py.

(** A raised exception: its class name and its argument. *)
Record exn := Exn { exn_class : string; exn_arg : string }.

Definition KeyError (k : string) : exn := Exn "KeyError" k.
Definition IndexError : exn := Exn "IndexError" "tuple index out of range".
Definition TypeError (msg : string) : exn := Exn "TypeError" msg.
Definition ValueError (msg : string) : exn := Exn "ValueError" msg.
Definition AttributeError (attr : string) : exn := Exn "AttributeError" attr.

(** The outcome of an expression: a value, or an exception on its way up. *)
Inductive except (A : Type) : Type :=
| Return (a : A)
| Raise (e : exn).
Arguments Return {A} a.
Arguments Raise {A} e.

Definition bind {A B} (c : except A) (k : A -> except B) : except B :=
  match c with
  | Return a => k a
  | Raise e => Raise e
  end.

Definition returns {A} (c : except A) : bool :=
  match c with Return _ => true | Raise _ => false end.

Definition value_or {A} (dflt : A) (c : except A) : A :=
  match c with Return a => a | Raise _ => dflt end.

(** The values that reach [%]-formatting.  A catchment identifier is
    whatever the caller passes: an [int], a [str], or any other object.
    Formatting sees of such an object the text [str()] gives and, for
    [%d], what [int()] gives: nothing when the object has no integer
    conversion ([None], a list, a nested tuple), an integer (a [bool], a
    [float] is truncated, an object with [__int__] such as a [UUID]) or
    the exception the conversion raises ([float('nan')]). *)
Inductive pyval :=
| PyInt (z : Z)
| PyStr (s : string)
| PyOther (text : string) (to_int : option (except Z)).

(** [str(v)] *)
Definition str (v : pyval) : string :=
  match v with
  | PyInt z => pretty z
  | PyStr s => s
  | PyOther text _ => text
  end.

(** The integer [%d] prints for [v], or the exception it raises. *)
Definition as_int (v : pyval) : except Z :=
  match v with
  | PyInt z => Return z
  | PyStr _ => Raise (TypeError "%d format: a number is required, not str")
  | PyOther _ None => Raise (TypeError "%d format: a number is required")
  | PyOther _ (Some r) => r
  end.

(** The right operand of [fmt % x]: a tuple gives the arguments one by
    one, any other value is the only argument. *)
Inductive operand :=
| Single (v : pyval)
| Tuple (items : list pyval).

Coercion Single : pyval >-> operand.

Definition operand_args (x : operand) : list pyval :=
  match x with
  | Single v => [v]
  | Tuple items => items
  end.


(** The operand is a number, or a tuple of one: the integer [%d] prints. *)
Definition int_value (x : operand) : option Z :=
  match operand_args x with
  | [v] => match as_int v with Return z => Some z | Raise _ => None end
  | _ => None
  end.


(** [fmt % args], for the conversions the catchment code writes: [%%],
    [%d] and [%s].  The format is read left to right; every conversion
    takes the next argument, [%d] wants a number, and arguments left over
    at the end are an error.  Any other character after [%] is reported
    as unsupported: flags, widths and the remaining conversion types of
    Python are outside this fragment, so the statements about labels
    below are about formats whose only [%] are the ones written in the
    source. *)
Fixpoint format (fmt : string) (args : list pyval) : except string :=
  match fmt with
  | EmptyString =>
      match args with
      | [] => Return ""
      | _ :: _ => Raise (TypeError "not all arguments converted during string formatting")
      end
  | String c rest =>
      if Ascii.eqb c "%"%char then
        match rest with
        | EmptyString => Raise (ValueError "incomplete format")
        | String conv rest' =>
            if Ascii.eqb conv "%"%char then
              bind (format rest' args) (fun out => Return (String "%"%char out))
            else if Ascii.eqb conv "d"%char then
              match args with
              | [] => Raise (TypeError "not enough arguments for format string")
              | PyInt z :: args' =>
                  bind (format rest' args') (fun out => Return (pretty z +:+ out))
              | PyStr _ :: _ =>
                  Raise (TypeError "%d format: a number is required, not str")
              | PyOther _ None :: _ =>
                  Raise (TypeError "%d format: a number is required")
              | PyOther _ (Some (Raise e)) :: _ => Raise e
              | PyOther _ (Some (Return z)) :: args' =>
                  bind (format rest' args') (fun out => Return (pretty z +:+ out))
              end
            else if Ascii.eqb conv "s"%char then
              match args with
              | [] => Raise (TypeError "not enough arguments for format string")
              | v :: args' =>
                  bind (format rest' args') (fun out => Return (str v +:+ out))
              end
            else Raise (ValueError "unsupported format character")
        end
      else bind (format rest args) (fun out => Return (String c out))
  end.

(** [fmt % x] *)
Definition percent (fmt : string) (x : operand) : except string :=
  format fmt (operand_args x).

(** [args[0]] on the tuple of positional arguments. *)
Definition first_arg {A} (args : list A) : except A :=
  match args with
  | a :: _ => Return a
  | [] => Raise IndexError
  end.

(** [d[k]] on a [dict], kept as its items in insertion order. *)
Fixpoint dict_getitem {V} (d : list (string * V)) (k : string) : except V :=
  match d with
  | [] => Raise (KeyError k)
  | (k', v) :: d' => if decide (k' = k) then Return v else dict_getitem d' k
  end.

End Py.
Export Py.

(** ** Models and model providers *)

(** A model description of [openwater.nodes]: an opaque object that carries
    the display name read by [link_catchments]. *)
Record model := Model { name : string }.

Global Instance model_eq_dec : EqDecision model.
Proof. solve_decision. Defined.

(** What sits in a provider slot of the catchment, by the two capabilities
    [model_for] probes with [hasattr]: an object with [__call__] (which may
    have [__getitem__] as well), an object with [__getitem__] only, or an
    object with neither, which is a model description. *)
Inductive provider :=
| Fixed (m : model)
| Callable (call : list string -> except model)
           (getitem : option (string -> except model))
| Subscriptable (getitem : string -> except model).

(** [hasattr(provider,'__call__')] and [hasattr(provider,'__getitem__')] *)
Definition has_call (p : provider) : bool :=
  match p with Callable _ _ => true | _ => false end.

Definition has_getitem (p : provider) : bool :=
  match p with
  | Callable _ (Some _) | Subscriptable _ => true
  | _ => false
  end.

(** A [dict] from unit identifiers to models, as a provider. *)
Definition of_dict (d : list (string * model)) : provider :=
  Subscriptable (dict_getitem d).

(** [provider.name]: only model descriptions have the attribute. *)
Definition provider_name (p : provider) : except string :=
  match p with
  | Fixed m => Return (name m)
  | _ => Raise (AttributeError "name")
  end.

(** Modelled from the spec: the node registry [openwater.nodes], which is
    not part of the sources at hand; section 6 of the specification has it
    as a namespace of named model identifiers, each with a stable display
    name.  The names below are the attribute names the catchment code
    reads. *)
Module n.
Definition Simhyd : model := Model "Simhyd".
Definition EmcDwc : model := Model "EmcDwc".
Definition Muskingum : model := Model "Muskingum".
Definition LumpedConstituentRouting : model := Model "LumpedConstituentRouting".
Definition DepthToRate : model := Model "DepthToRate".
End n.

(** ** The template and the network graph *)

(** Modelled from the spec: [OWTemplate] and [OWLink] of the [openwater]
    package, which are imported by the catchment module and are not part of
    the sources at hand.  Sections 3 and 6 of the specification give the
    interface: a node is identified by its model, its process role and its
    parameter set; [add_node] returns the node's handle and is idempotent
    on an identical identity; a link joins a named output port of one node
    to a named input port of another, and a port may receive several
    links. *)
Module OW.

Record OWNode := mkNode {
  model_type : model;
  process : string;
  tags : list (string * string) }.

Record OWLink := mkLink {
  from_node : OWNode;
  from_output : string;
  to_node : OWNode;
  to_input : string }.

Record OWTemplate := mkTemplate {
  nodes : list OWNode;
  links : list OWLink }.

Global Instance OWNode_eq_dec : EqDecision OWNode.
Proof. solve_decision. Defined.

Global Instance OWLink_eq_dec : EqDecision OWLink.
Proof. solve_decision. Defined.

(** [OWTemplate()] *)
Definition empty : OWTemplate := mkTemplate [] [].

(** Adding a node identity to the node list: nothing changes when it is
    already there. *)
Definition insert_node (nd : OWNode) (ns : list OWNode) : list OWNode :=
  if decide (nd ∈ ns) then ns else ns ++ [nd].

(** Code that works on one template: the template is threaded through,
    and an exception leaves no template behind. *)
Definition tmpl (A : Type) : Type := OWTemplate -> except (A * OWTemplate).

Definition ret {A} (a : A) : tmpl A := fun t => Return (a, t).

Definition tbind {A B} (c : tmpl A) (k : A -> tmpl B) : tmpl B :=
  fun t => match c t with
           | Return (a, t') => k a t'
           | Raise e => Raise e
           end.

(** An expression that does not touch the template. *)
Definition lift {A} (c : except A) : tmpl A :=
  fun t => match c with
           | Return a => Return (a, t)
           | Raise e => Raise e
           end.

(** [template.add_node(model, process=..., **tags)] *)
Definition add_node (m : model) (proc : string) (tgs : list (string * string))
  : tmpl OWNode :=
  fun t => let nd := mkNode m proc tgs in
           Return (nd, mkTemplate (insert_node nd (nodes t)) (links t)).

(** [template.add_link(link)] *)
Definition add_link (l : OWLink) : tmpl unit :=
  fun t => Return (tt, mkTemplate (nodes t) (links t ++ [l])).

(** [for x in xs: body] *)
Fixpoint for_each {A} (xs : list A) (body : A -> tmpl unit) : tmpl unit :=
  match xs with
  | [] => ret tt
  | x :: xs' => tbind (body x) (fun _ => for_each xs' body)
  end.

(** [for x in xs: body], where the body also updates a local variable. *)
Fixpoint for_acc {A S} (xs : list A) (acc : S) (body : A -> S -> tmpl S) : tmpl S :=
  match xs with
  | [] => ret acc
  | x :: xs' => tbind (body x acc) (fun acc' => for_acc xs' acc' body)
  end.

(** Run the code on a template of its own and hand the template back. *)
Definition build {A} (c : tmpl A) (t : OWTemplate) : except OWTemplate :=
  match c t with
  | Return (_, t') => Return t'
  | Raise e => Raise e
  end.

End OW.
Export OW.

Notation "'let!' x ':=' c 'in' k" := (tbind c (fun x => k))
  (at level 10, x name, c at level 100, k at level 200).
Notation "c1 ';;!' c2" := (tbind c1 (fun _ => c2))
  (at level 100, c2 at level 200, right associativity).

(** Modelled from the spec: the caller's network graph, an external
    collaborator; section 6 of the specification gives [add_edge(src_label,
    dest_label, src=[port,...], dest=[port,...])].  The graph is kept as the
    edges added to it, in order, parallel edges included. *)
Module Graph.

Record edge := mkEdge {
  edge_src : string;
  edge_dest : string;
  attr_src : list string;
  attr_dest : list string }.

Definition digraph := list edge.

Definition add_edge (g : digraph) (src_node dest_node : string)
           (src dest : list string) : digraph :=
  g ++ [mkEdge src_node dest_node src dest].

End Graph.
Export Graph.

(** ** openwater.catchments.SemiLumpedCatchment *)

Record SemiLumpedCatchment := mkCatchment {
  hrus : list string;
  cgus : list string;
  cgu_hrus : list (string * string);   (* a dict, as its items in order *)
  constituents : list string;
  rr : provider;
  cg : provider;
  routing : model;
  transport : provider }.

(** [SemiLumpedCatchment.__init__] *)
Definition init : SemiLumpedCatchment :=
  {| hrus := ["HRU"];
     cgus := ["CGU"];
     cgu_hrus := [("CGU", "HRU")];
     constituents := ["Con"];
     rr := Fixed n.Simhyd;
     cg := Fixed n.EmcDwc;
     routing := n.Muskingum;
     transport := Fixed n.LumpedConstituentRouting |}.

(** [SemiLumpedCatchment.model_for] *)
Definition model_for (provider : provider) (args : list string) : except model :=
  match provider with
  | Callable call _ => call args
  | Subscriptable getitem => bind (first_arg args) getitem
  | Fixed m => Return m
  end.

(** [transport[con]] on the local dict of transport nodes *)
Definition lookup_node (transport_nodes : gmap string OWNode) (con : string)
  : except OWNode :=
  match transport_nodes !! con with
  | Some nd => Return nd
  | None => Raise (KeyError con)
  end.

(** [[cgu for cgu,h in self.cgu_hrus.items() if h==hru]] *)
Definition cgus_of (self : SemiLumpedCatchment) (hru : string) : list string :=
  (filter (fun item => item.2 = hru) (cgu_hrus self)).*1.

(** [SemiLumpedCatchment.get_template] *)
Definition get_template (self : SemiLumpedCatchment) : except OWTemplate :=
  build
    (let! routing_node := add_node (routing self) "FlowRouting" [] in
     let! transport_nodes :=
       for_acc (constituents self) (∅ : gmap string OWNode)
         (fun con transport_nodes =>
            let! m := lift (model_for (transport self) [con]) in
            let! transport_node :=
              add_node m "ConstituentRouting" [("constituent", con)] in
            add_link (mkLink routing_node "outflow" transport_node "outflow") ;;!
            ret (<[con := transport_node]> transport_nodes)) in
     for_each (hrus self)
       (fun hru =>
          let! m := lift (model_for (rr self) [hru]) in
          let! runoff_node := add_node m "RR" [("hru", hru)] in
          let! runoff_scale_node :=
            add_node n.DepthToRate "ArealScale" [("hru", hru); ("component", "Runoff")] in
          let! quickflow_scale_node :=
            add_node n.DepthToRate "ArealScale" [("hru", hru); ("component", "Quickflow")] in
          let! baseflow_scale_node :=
            add_node n.DepthToRate "ArealScale" [("hru", hru); ("component", "Baseflow")] in
          add_link (mkLink runoff_node "runoff" runoff_scale_node "input") ;;!
          add_link (mkLink runoff_node "quickflow" quickflow_scale_node "input") ;;!
          add_link (mkLink runoff_node "baseflow" baseflow_scale_node "input") ;;!
          add_link (mkLink runoff_scale_node "outflow" routing_node "lateral") ;;!
          for_each (constituents self)
            (fun con =>
               let! transport_node := lift (lookup_node transport_nodes con) in
               add_link (mkLink runoff_scale_node "outflow" transport_node "inflow") ;;!
               for_each (cgus_of self hru)
                 (fun cgu =>
                    let! m := lift (model_for (cg self) [con; cgu]) in
                    let! gen_node :=
                      add_node m "ConstituentGeneration"
                        [("constituent", con); ("lu", cgu)] in
                    add_link (mkLink quickflow_scale_node "outflow" gen_node "quickflow") ;;!
                    add_link (mkLink baseflow_scale_node "outflow" gen_node "baseflow") ;;!
                    add_link (mkLink gen_node "totalLoad" transport_node "lateralLoad")))))
    OW.empty.

(** The [linkages] list of [link_catchments]: a label format, a source port
    and a destination port for the flow and for every constituent. *)
Fixpoint constituent_linkages (self : SemiLumpedCatchment) (cs : list string)
  : except (list (string * string * string)) :=
  match cs with
  | [] => Return []
  | c :: cs' =>
      bind (provider_name (transport self)) (fun tname =>
      bind (format ("%%d-ConstituentRouting-%s (" +:+ tname +:+ ")") [PyStr c]) (fun lt =>
      bind (constituent_linkages self cs') (fun rest =>
      Return ((lt, "outflowLoad", "inflowLoad") :: rest))))
  end.

Definition linkages (self : SemiLumpedCatchment)
  : except (list (string * string * string)) :=
  bind (constituent_linkages self (constituents self)) (fun rest =>
  Return (("%d-FlowRouting (" +:+ name (routing self) +:+ ")", "outflow", "inflow") :: rest)).

(** The loop of [link_catchments].  The graph is the caller's and is changed
    in place, so the edges added before an exception stay in it. *)
Fixpoint link_loop (ls : list (string * string * string))
         (upstream downstream : operand) (graph : digraph) : except unit * digraph :=
  match ls with
  | [] => (Return tt, graph)
  | (lt, src, dest) :: ls' =>
      match percent lt upstream with
      | Raise e => (Raise e, graph)
      | Return dest_node =>
          match percent lt downstream with
          | Raise e => (Raise e, graph)
          | Return src_node =>
              link_loop ls' upstream downstream
                        (add_edge graph src_node dest_node [src] [dest])
          end
      end
  end.

(** [SemiLumpedCatchment.link_catchments] *)
Definition link_catchments (self : SemiLumpedCatchment) (graph : digraph)
           (upstream downstream : operand) : except unit * digraph :=
  match linkages self with
  | Raise e => (Raise e, graph)
  | Return ls => link_loop ls upstream downstream graph
  end.

(** * The vocabulary of the properties *)

(** ** The template in closed form

    The nodes [get_template] asks the template to add, and the links it
    adds, written as lists over the catchment description.  A provider
    that does not resolve contributes an arbitrary model here; the lists are
    used only where every provider resolves. *)

Definition resolved (p : provider) (args : list string) : model :=
  value_or (Model "") (model_for p args).

Section Closed.

Variable self : SemiLumpedCatchment.

Definition routing_node : OWNode :=
  mkNode (routing self) "FlowRouting" [].
Definition transport_node (con : string) : OWNode :=
  mkNode (resolved (transport self) [con]) "ConstituentRouting" [("constituent", con)].
Definition runoff_node (hru : string) : OWNode :=
  mkNode (resolved (rr self) [hru]) "RR" [("hru", hru)].
Definition scale_node (hru comp : string) : OWNode :=
  mkNode n.DepthToRate "ArealScale" [("hru", hru); ("component", comp)].
Definition gen_node (con cgu : string) : OWNode :=
  mkNode (resolved (cg self) [con; cgu]) "ConstituentGeneration"
         [("constituent", con); ("lu", cgu)].

Definition con_nodes (hru con : string) : list OWNode :=
  cgus_of self hru ≫= (fun cgu => [gen_node con cgu]).
Definition hru_nodes (hru : string) : list OWNode :=
  [runoff_node hru; scale_node hru "Runoff"; scale_node hru "Quickflow";
   scale_node hru "Baseflow"]
  ++ (constituents self ≫= con_nodes hru).
Definition node_trace : list OWNode :=
  [routing_node]
  ++ (constituents self ≫= (fun con => [transport_node con]))
  ++ (hrus self ≫= hru_nodes).

Definition cgu_links (hru con cgu : string) : list OWLink :=
  [mkLink (scale_node hru "Quickflow") "outflow" (gen_node con cgu) "quickflow";
   mkLink (scale_node hru "Baseflow") "outflow" (gen_node con cgu) "baseflow";
   mkLink (gen_node con cgu) "totalLoad" (transport_node con) "lateralLoad"].
Definition con_links (hru con : string) : list OWLink :=
  [mkLink (scale_node hru "Runoff") "outflow" (transport_node con) "inflow"]
  ++ (cgus_of self hru ≫= cgu_links hru con).
Definition hru_links (hru : string) : list OWLink :=
  [mkLink (runoff_node hru) "runoff" (scale_node hru "Runoff") "input";
   mkLink (runoff_node hru) "quickflow" (scale_node hru "Quickflow") "input";
   mkLink (runoff_node hru) "baseflow" (scale_node hru "Baseflow") "input";
   mkLink (scale_node hru "Runoff") "outflow" routing_node "lateral"]
  ++ (constituents self ≫= con_links hru).
Definition link_trace : list OWLink :=
  (constituents self ≫=
     (fun con => [mkLink routing_node "outflow" (transport_node con) "outflow"]))
  ++ (hrus self ≫= hru_links).

(** Every provider resolves wherever [get_template] consults it. *)
Definition ok_transport (con : string) : bool :=
  returns (model_for (transport self) [con]).
Definition ok_cgu (con cgu : string) : bool :=
  returns (model_for (cg self) [con; cgu]).
Definition ok_con (hru con : string) : bool :=
  forallb (ok_cgu con) (cgus_of self hru).
Definition ok_hru (hru : string) : bool :=
  returns (model_for (rr self) [hru]) && forallb (ok_con hru) (constituents self).
Definition resolvable : bool :=
  forallb ok_transport (constituents self) && forallb ok_hru (hrus self).

End Closed.

(** Asking a template for a list of nodes, one after the other. *)
Definition insert_nodes (new : list OWNode) (ns : list OWNode) : list OWNode :=
  foldl (fun acc nd => insert_node nd acc) ns new.

Definition extend (t : OWTemplate) (ns : list OWNode) (ls : list OWLink) : OWTemplate :=
  mkTemplate (insert_nodes ns (nodes t)) (links t ++ ls).

Definition template_of (self : SemiLumpedCatchment) : OWTemplate :=
  extend OW.empty (node_trace self) (link_trace self).

(** ** What a piece of template code does

    [outcome ok c a ns ls]: when [ok] holds, [c] returns [a] and leaves the
    template extended by the nodes [ns] and the links [ls]; when it does
    not, [c] raises. *)
Definition outcome {A} (ok : bool) (c : tmpl A) (a : A)
           (ns : list OWNode) (ls : list OWLink) : Prop :=
  if ok then forall t, c t = Return (a, extend t ns ls)
  else forall t, returns (c t) = false.

(** ** Catchments and templates *)

(** The data model of the specification has the response units, the
    constituents and the source units as sets: no identifier twice.  The
    keys of a [dict] are distinct in any case. *)
Definition well_formed (self : SemiLumpedCatchment) : Prop :=
  NoDup (hrus self) ∧ NoDup (constituents self) ∧ NoDup (cgu_hrus self).*1.

(** Every source unit is mapped onto a response unit of the catchment. *)
Definition all_mapped (self : SemiLumpedCatchment) : Prop :=
  Forall (fun item => item.2 ∈ hrus self) (cgu_hrus self).

(** Some source unit is mapped onto a response unit the catchment does not
    have. *)
Definition dangling (self : SemiLumpedCatchment) : Prop :=
  exists cgu hru, (cgu, hru) ∈ cgu_hrus self /\ hru ∉ hrus self.

(** The catchment without the entries of [cgu_hrus] whose response unit is
    not in [hrus]. *)
Definition prune (self : SemiLumpedCatchment) : SemiLumpedCatchment :=
  {| hrus := hrus self;
     cgus := cgus self;
     cgu_hrus := filter (fun item => item.2 ∈ hrus self) (cgu_hrus self);
     constituents := constituents self;
     rr := rr self; cg := cg self;
     routing := routing self; transport := transport self |}.

(** Two catchments that differ in their list [cgus] at most. *)
Definition same_but_cgus (d1 d2 : SemiLumpedCatchment) : Prop :=
  hrus d1 = hrus d2 /\ cgu_hrus d1 = cgu_hrus d2
  /\ constituents d1 = constituents d2
  /\ rr d1 = rr d2 /\ cg d1 = cg d2
  /\ routing d1 = routing d2 /\ transport d1 = transport d2.


(** The links of a template that arrive at a port of a node. *)
Definition incoming (t : OWTemplate) (nd : OWNode) (port : string) : list OWLink :=
  filter (fun l => to_node l = nd /\ to_input l = port) (links t).

(** The nodes of a template that have a given process role. *)
Definition with_process (p : string) (ns : list OWNode) : list OWNode :=
  filter (fun nd => process nd = p) ns.

(** ** Labels and edges *)

(** A string without a [%]. *)
Fixpoint plain (s : string) : bool :=
  match s with
  | EmptyString => true
  | String c s' => negb (Ascii.eqb c "%"%char) && plain s'
  end.

(** The vertex labels of the flow routing and of the transport of a
    constituent in the catchment [z]. *)
Definition flow_label (rname : string) (z : Z) : string :=
  pretty z +:+ "-FlowRouting (" +:+ rname +:+ ")".
Definition load_label (tname c : string) (z : Z) : string :=
  pretty z +:+ "-ConstituentRouting-" +:+ c +:+ " (" +:+ tname +:+ ")".

(** The edges of one call of [link_catchments]. *)
Definition flow_edge (rname : string) (upstream downstream : Z) : edge :=
  mkEdge (flow_label rname downstream) (flow_label rname upstream)
         ["outflow"] ["inflow"].
Definition load_edge (tname : string) (upstream downstream : Z) (c : string) : edge :=
  mkEdge (load_label tname c downstream) (load_label tname c upstream)
         ["outflowLoad"] ["inflowLoad"].

(** An edge made from a linkage: its source is the label resolved against
    the downstream identifier, its destination the label resolved against
    the upstream one, and its attributes are the two ports. *)
Definition edge_of (upstream downstream : operand)
           (l : string * string * string) (e : edge) : Prop :=
  percent l.1.1 downstream = Return (edge_src e)
  /\ percent l.1.1 upstream = Return (edge_dest e)
  /\ attr_src e = [l.1.2] /\ attr_dest e = [l.2].

(** ** Some catchments *)

(** The scenario with the models of [__init__]. *)
Definition scenario : SemiLumpedCatchment :=
  {| hrus := ["H1"]; cgus := ["S1"]; cgu_hrus := [("S1", "H1")];
     constituents := ["N"];
     rr := Fixed n.Simhyd; cg := Fixed n.EmcDwc;
     routing := n.Muskingum; transport := Fixed n.LumpedConstituentRouting |}.

(** Two constituents [N] and [P], one response unit, one source unit. *)
Definition two_constituents : SemiLumpedCatchment :=
  {| hrus := ["H1"]; cgus := ["S1"]; cgu_hrus := [("S1", "H1")];
     constituents := ["N"; "P"];
     rr := Fixed n.Simhyd; cg := Fixed n.EmcDwc;
     routing := n.Muskingum; transport := Fixed n.LumpedConstituentRouting |}.

(** Two response units, three source units, two constituents; the models
    come from a function, a dict and a model description. *)
Definition mixed_catchment : SemiLumpedCatchment :=
  {| hrus := ["Forest"; "Grazing"];
     cgus := ["Pine"; "Gum"; "Beef"];
     cgu_hrus := [("Pine", "Forest"); ("Beef", "Grazing"); ("Gum", "Forest")];
     constituents := ["N"; "P"];
     rr := of_dict [("Forest", n.Simhyd); ("Grazing", Model "GR4J")];
     cg := Callable (fun _ => Return n.EmcDwc) None;
     routing := n.Muskingum;
     transport := Fixed n.LumpedConstituentRouting |}.


(** The source unit [Oats] is declared in [cgus] and mapped nowhere. *)
Definition undeclared_mapping : SemiLumpedCatchment :=
  {| hrus := ["H1"]; cgus := ["Oats"; "S1"]; cgu_hrus := [("S1", "H1")];
     constituents := ["N"];
     rr := Fixed n.Simhyd; cg := Fixed n.EmcDwc;
     routing := n.Muskingum; transport := Fixed n.LumpedConstituentRouting |}.

(** ** More about templates and graphs *)

(** The links of a template that leave a port of a node. *)
Definition outgoing (t : OWTemplate) (nd : OWNode) (port : string) : list OWLink :=
  filter (fun l => from_node l = nd /\ from_output l = port) (links t).

(** The role of a node and its parameters, without its model. *)
Definition node_key (nd : OWNode) : string * list (string * string) :=
  (process nd, tags nd).

(** A provider that raises whatever it is asked. *)
Definition failing (e : exn) : provider :=
  Callable (fun _ => Raise e) None.

(** ** The exception of a call of get_template *)

(** The exception an expression raises, if it raises. *)
Definition raised {A} (c : except A) : option exn :=
  match c with
  | Return _ => None
  | Raise e => Some e
  end.

(** The first exception of a sequence of outcomes. *)
Fixpoint first_raised (rs : list (option exn)) : option exn :=
  match rs with
  | [] => None
  | Some e :: _ => Some e
  | None :: rs' => first_raised rs'
  end.

(** The provider lookups of [get_template] in the order it makes them: the
    transport of every constituent; then, response unit by response unit,
    the runoff model of the unit and, constituent by constituent, the
    generation model of every source unit mapped onto the unit. *)
Definition lookup_errors (self : SemiLumpedCatchment) : list (option exn) :=
  (constituents self ≫= (fun con => [raised (model_for (transport self) [con])]))
  ++ (hrus self ≫=
        (fun hru =>
           raised (model_for (rr self) [hru])
           :: (constituents self ≫=
                 (fun con =>
                    cgus_of self hru ≫=
                      (fun cgu => [raised (model_for (cg self) [con; cgu])]))))).

(** [outcome_exn r c a ns ls]: when [r] is an exception, [c] raises it;
    otherwise [c] returns [a] and leaves the template extended by the nodes
    [ns] and the links [ls]. *)
Definition outcome_exn {A} (r : option exn) (c : tmpl A) (a : A)
           (ns : list OWNode) (ls : list OWLink) : Prop :=
  match r with
  | None => forall t, c t = Return (a, extend t ns ls)
  | Some e => forall t, c t = Raise e
  end.

(** ** More catchments *)


(** The transport models come from a dict, one per constituent. *)
Definition transport_by_constituent : SemiLumpedCatchment :=
  {| hrus := ["H1"]; cgus := ["S1"]; cgu_hrus := [("S1", "H1")];
     constituents := ["N"];
     rr := Fixed n.Simhyd; cg := Fixed n.EmcDwc;
     routing := n.Muskingum;
     transport := of_dict [("N", n.LumpedConstituentRouting)] |}.

(** The generation models come from a dict, and two source units share a
    response unit. *)
Definition generation_by_dict : SemiLumpedCatchment :=
  {| hrus := ["H1"]; cgus := ["S1"; "S2"];
     cgu_hrus := [("S1", "H1"); ("S2", "H1")];
     constituents := ["N"; "P"];
     rr := Fixed n.Simhyd;
     cg := of_dict [("N", n.EmcDwc); ("P", Model "Sednet")];
     routing := n.Muskingum; transport := Fixed n.LumpedConstituentRouting |}.

(** No constituent, and providers for transport and generation that raise
    whatever they are asked. *)
Definition no_constituents : SemiLumpedCatchment :=
  {| hrus := ["H1"; "H2"]; cgus := ["S1"]; cgu_hrus := [("S1", "H1")];
     constituents := [];
     rr := Fixed n.Simhyd; cg := failing (ValueError "cg");
     routing := n.Muskingum; transport := failing (ValueError "transport") |}.

(** No response unit, and providers for runoff and generation that raise
    whatever they are asked. *)
Definition no_hrus : SemiLumpedCatchment :=
  {| hrus := []; cgus := ["S1"]; cgu_hrus := [("S1", "H1")];
     constituents := ["N"; "P"];
     rr := failing (ValueError "rr"); cg := failing (ValueError "cg");
     routing := n.Muskingum; transport := Fixed n.LumpedConstituentRouting |}.

(** * Properties *)

(** ** Formats *)

Example format_int : format "%d-FlowRouting (Muskingum)" [PyInt 12] = Return "12-FlowRouting (Muskingum)".
Proof. reflexivity. Qed.
Example format_pct : format "%%d-ConstituentRouting-%s (X)" [PyStr "N"] = Return "%d-ConstituentRouting-N (X)".
Proof. reflexivity. Qed.
Example format_str : returns (format "%d-FlowRouting (Muskingum)" [PyStr "a"]) = false.
Proof. reflexivity. Qed.

Example format_float :
  format "%d-FlowRouting (Muskingum)" [PyOther "1.9" (Some (Return 1%Z))]
  = Return "1-FlowRouting (Muskingum)".
Proof. reflexivity. Qed.
Example format_none : returns (format "%d-FlowRouting (Muskingum)" [PyOther "None" None]) = false.
Proof. reflexivity. Qed.
Example percent_tuple :
  percent "%d-FlowRouting (Muskingum)" (Tuple [PyInt 12]) = Return "12-FlowRouting (Muskingum)".
Proof. reflexivity. Qed.
Example percent_pair :
  returns (percent "%d-FlowRouting (Muskingum)" (Tuple [PyInt 1; PyInt 2])) = false.
Proof. reflexivity. Qed.

Lemma append_cons (c : ascii) (s1 s2 : string) :
  String c s1 +:+ s2 = String c (s1 +:+ s2).
Proof. reflexivity. Qed.

Lemma plain_app (s1 s2 : string) : plain (s1 +:+ s2) = plain s1 && plain s2.
Proof.
  induction s1 as [|c s1 IH]; [done|].
  rewrite append_cons. simpl. by rewrite IH, andb_assoc.
Qed.

Lemma format_plain_prefix (s rest : string) (args : list pyval) :
  plain s = true ->
  format (s +:+ rest) args = bind (format rest args) (fun out => Return (s +:+ out)).
Proof.
  induction s as [|c s IH]; intros Hs.
  - change ("" +:+ rest) with rest. by destruct (format rest args).
  - simpl in Hs. apply andb_true_iff in Hs as [Hc Hs].
    apply negb_true_iff in Hc. rewrite append_cons. simpl.
    rewrite Hc, (IH Hs). by destruct (format rest args).
Qed.

Lemma format_plain (s : string) : plain s = true -> format s [] = Return s.
Proof.
  induction s as [|c s IH]; intros Hs; [done|]. simpl in *.
  apply andb_true_iff in Hs as [Hc Hs]. apply negb_true_iff in Hc.
  by rewrite Hc, (IH Hs).
Qed.

Lemma format_d (z : Z) (rest : string) (args : list pyval) :
  format (String "%" (String "d" rest)) (PyInt z :: args)
  = bind (format rest args) (fun out => Return (pretty z +:+ out)).
Proof. reflexivity. Qed.

Lemma format_d_as_int (v : pyval) (z : Z) (rest : string) (args : list pyval) :
  as_int v = Return z ->
  format (String "%" (String "d" rest)) (v :: args)
  = bind (format rest args) (fun out => Return (pretty z +:+ out)).
Proof.
  destruct v as [z'|s|text [[z'|e]|]]; cbn [as_int]; intros [= ->]; reflexivity.
Qed.

Lemma format_d_raises (rest : string) (args : list pyval) :
  match args with v :: _ => returns (as_int v) | [] => false end = false ->
  exists e, format (String "%" (String "d" rest)) args = Raise e.
Proof.
  destruct args as [|[z|s|text [[z|e]|]] args]; cbn [as_int returns]; intros H;
    try discriminate H; by eexists.
Qed.



Lemma format_s (v : pyval) (rest : string) (args : list pyval) :
  format (String "%" (String "s" rest)) (v :: args)
  = bind (format rest args) (fun out => Return (str v +:+ out)).
Proof. reflexivity. Qed.

Lemma format_percent (rest : string) (args : list pyval) :
  format (String "%" (String "%" rest)) args
  = bind (format rest args) (fun out => Return (String "%" out)).
Proof. reflexivity. Qed.

Lemma format_flow (rname : string) (z : Z) :
  plain rname = true ->
  format ("%d-FlowRouting (" +:+ rname +:+ ")") [PyInt z] = Return (flow_label rname z).
Proof.
  intros Hr. rewrite 2!append_cons, format_d.
  rewrite format_plain; [done|]. by rewrite !plain_app, Hr.
Qed.

Lemma percent_single (fmt : string) (v : pyval) :
  percent fmt (Single v) = format fmt [v].
Proof. reflexivity. Qed.

Lemma int_value_args (x : operand) (z : Z) :
  int_value x = Some z -> exists v, operand_args x = [v] /\ as_int v = Return z.
Proof.
  unfold int_value. destruct (operand_args x) as [|v [|w args]]; [done| |done].
  destruct (as_int v) as [z'|e] eqn:Hv; [|done]. intros [= ->]. by exists v.
Qed.

Lemma percent_flow (rname : string) (x : operand) (z : Z) :
  int_value x = Some z -> plain rname = true ->
  percent ("%d-FlowRouting (" +:+ rname +:+ ")") x = Return (flow_label rname z).
Proof.
  intros (v & Hargs & Hv)%int_value_args Hr. unfold percent. rewrite Hargs.
  rewrite 2!append_cons, (format_d_as_int v z) by done.
  rewrite format_plain; [done|]. by rewrite !plain_app, Hr.
Qed.

Lemma percent_load (tname c : string) (x : operand) (z : Z) :
  int_value x = Some z -> plain tname = true -> plain c = true ->
  percent ("%d-ConstituentRouting-" +:+ c +:+ " (" +:+ tname +:+ ")") x
  = Return (load_label tname c z).
Proof.
  intros (v & Hargs & Hv)%int_value_args Ht Hc. unfold percent. rewrite Hargs.
  rewrite 2!append_cons, (format_d_as_int v z) by done.
  rewrite format_plain; [done|]. by rewrite !plain_app, Ht, Hc.
Qed.

Lemma format_load_template (tname c : string) :
  plain tname = true ->
  format ("%%d-ConstituentRouting-%s (" +:+ tname +:+ ")") [PyStr c]
  = Return ("%d-ConstituentRouting-" +:+ c +:+ " (" +:+ tname +:+ ")").
Proof.
  intros Ht. rewrite 2!append_cons, format_percent.
  change ("d-ConstituentRouting-%s (" +:+ tname +:+ ")")
    with ("d-ConstituentRouting-" +:+ String "%" (String "s" (" (" +:+ tname +:+ ")"))).
  rewrite format_plain_prefix by done. rewrite format_s.
  rewrite format_plain; [done|]. by rewrite !plain_app, Ht.
Qed.

Lemma format_load (tname c : string) (z : Z) :
  plain tname = true -> plain c = true ->
  format ("%d-ConstituentRouting-" +:+ c +:+ " (" +:+ tname +:+ ")") [PyInt z]
  = Return (load_label tname c z).
Proof.
  intros Ht Hc. rewrite 2!append_cons, format_d.
  rewrite format_plain; [done|]. by rewrite !plain_app, Ht, Hc.
Qed.

(** ** Lists and dicts *)

Lemma length_bind_sum {A B} (f : A -> list B) (xs : list A) :
  length (xs ≫= f) = sum_list ((fun x => length (f x)) <$> xs).
Proof.
  induction xs as [|x xs IH]; [done|].
  rewrite bind_cons, length_app, IH. done.
Qed.

Lemma sum_list_const {A} (g : A -> nat) (k : nat) (xs : list A) :
  (forall x, x ∈ xs -> g x = k) -> sum_list (g <$> xs) = length xs * k.
Proof.
  induction xs as [|x xs IH]; intros Hg; [done|]. csimpl.
  rewrite (Hg x) by by left. rewrite IH; [lia|].
  intros y Hy. apply Hg. by right.
Qed.

Lemma sum_list_affine {A} (g : A -> nat) (a b : nat) (xs : list A) :
  sum_list ((fun x => a + b * g x) <$> xs) = length xs * a + b * sum_list (g <$> xs).
Proof. induction xs as [|x xs IH]; csimpl; [lia|]. rewrite IH. lia. Qed.

Lemma filter_bind {A B} (P : B -> Prop) `{!forall y, Decision (P y)}
      (f : A -> list B) (xs : list A) :
  filter P (xs ≫= f) = xs ≫= (fun x => filter P (f x)).
Proof.
  induction xs as [|x xs IH]; [done|].
  by rewrite !bind_cons, filter_app, IH.
Qed.

Lemma bind_ext_elem {A B} (f g : A -> list B) (xs : list A) :
  (forall x, x ∈ xs -> f x = g x) -> xs ≫= f = xs ≫= g.
Proof.
  intros Hfg. apply Forall_bind_ext, Forall_forall. intros x Hx. by apply Hfg.
Qed.

Lemma bind_nothing {A B} (xs : list A) : xs ≫= (fun _ => @nil B) = [].
Proof. induction xs as [|x xs IH]; [done|]. by rewrite bind_cons, IH. Qed.

(** In a list without repetition, the one element that is selected. *)
Lemma bind_select {A B} `{EqDecision A} (f : A -> list B) (x : A) (xs : list A) :
  NoDup xs -> x ∈ xs ->
  xs ≫= (fun y => if decide (y = x) then f y else []) = f x.
Proof.
  induction 1 as [|y xs Hy Hnd IH]; intros Hin; [by inv Hin|].
  rewrite bind_cons. destruct (decide (y = x)) as [->|Hne].
  - rewrite (bind_ext_elem _ (fun _ => [])), bind_nothing; [by rewrite app_nil_r|].
    intros z Hz. rewrite decide_False; [done|]. by intros ->.
  - simpl. apply IH. apply elem_of_cons in Hin as [?|?]; [congruence|done].
Qed.

Lemma filter_singleton_if {A} (P : A -> Prop) `{!forall x, Decision (P x)} (x : A) :
  filter P [x] = if decide (P x) then [x] else [].
Proof. by rewrite filter_cons, filter_nil. Qed.

Lemma length_bind_if {A B} (P : Prop) `{!Decision P} (f : A -> list B) (xs : list A) :
  length (xs ≫= (fun x => if decide P then f x else []))
  = if decide P then length (xs ≫= f) else 0.
Proof. case_decide; [done|]. by rewrite bind_nothing. Qed.

Lemma fmap_bind_singleton {A B C} (f : B -> C) (g : A -> B) (xs : list A) :
  f <$> (xs ≫= (fun x => [g x])) = (fun x => f (g x)) <$> xs.
Proof. induction xs as [|x xs IH]; [done|]. csimpl. by rewrite IH. Qed.

Lemma fmap_bind_bind_singleton {A B C D} (f : C -> D) (h : A -> list B)
      (g : B -> C) (xs : list A) :
  f <$> (xs ≫= (fun x => h x ≫= (fun y => [g y])))
  = (fun y => f (g y)) <$> (xs ≫= h).
Proof.
  induction xs as [|x xs IH]; [done|].
  rewrite !bind_cons, !fmap_app, IH. by rewrite fmap_bind_singleton.
Qed.


Lemma forallb_ext_elem {A} (f g : A -> bool) (xs : list A) :
  (forall x, x ∈ xs -> f x = g x) -> forallb f xs = forallb g xs.
Proof.
  induction xs as [|x xs IH]; intros Hfg; [done|]. simpl.
  rewrite (Hfg x) by by left. rewrite IH; [done|].
  intros y Hy. apply Hfg. by right.
Qed.


(** A key of a [dict] has one value. *)
Lemma dict_key_unique {V} (d : list (string * V)) (k : string) (v1 v2 : V) :
  NoDup d.*1 -> (k, v1) ∈ d -> (k, v2) ∈ d -> v1 = v2.
Proof.
  induction d as [|[k' v'] d IH]; intros Hnd H1 H2; [by inv H1|].
  simpl in Hnd. apply NoDup_cons in Hnd as [Hk Hnd].
  apply elem_of_cons in H1 as [H1|H1]; apply elem_of_cons in H2 as [H2|H2].
  - congruence.
  - inv H1. destruct Hk. apply list_elem_of_fmap. by exists (k', v2).
  - inv H2. destruct Hk. apply list_elem_of_fmap. by exists (k', v1).
  - by apply IH.
Qed.

Lemma dict_getitem_elem {V} (d : list (string * V)) (k : string) (v : V) :
  NoDup d.*1 -> (k, v) ∈ d -> dict_getitem d k = Return v.
Proof.
  induction d as [|[k' v'] d IH]; intros Hnd Hin; [by inv Hin|].
  simpl. case_decide as Hk.
  - subst k'. f_equal. eapply dict_key_unique; [exact Hnd|by left|done].
  - apply IH.
    + simpl in Hnd. by apply NoDup_cons in Hnd as [_ ?].
    + apply elem_of_cons in Hin as [Heq|?]; [|done]. by inv Heq.
Qed.

Lemma dict_getitem_missing {V} (d : list (string * V)) (k : string) :
  k ∉ d.*1 -> dict_getitem d k = Raise (KeyError k).
Proof.
  induction d as [|[k' v'] d IH]; intros Hk; [done|].
  simpl. rewrite decide_False.
  - apply IH. intros Hin. apply Hk. by right.
  - intros ->. apply Hk. by left.
Qed.

(** The source units mapped onto the response units of a list, counted unit
    by unit. *)
Lemma mapped_units_count (items : list (string * string)) (hs : list string) :
  NoDup hs ->
  sum_list ((fun h => length (filter (fun item => item.2 = h) items)) <$> hs)
  = length (filter (fun item => item.2 ∈ hs) items).
Proof.
  induction 1 as [|h hs Hh Hnd IH]; csimpl.
  - induction items as [|i items IHi]; [done|].
    rewrite filter_cons_False; [done|]. apply not_elem_of_nil.
  - rewrite IH. clear IH. induction items as [|i items IHi]; [done|].
    rewrite !filter_cons.
    destruct (decide (i.2 = h)) as [Heq|Hne].
    + rewrite decide_False by (rewrite Heq; done).
      rewrite decide_True by (rewrite Heq; by left). simpl. lia.
    + destruct (decide (i.2 ∈ hs)) as [Hin|Hnin].
      * rewrite decide_True by by right. simpl. lia.
      * rewrite decide_False; [done|]. by intros [?|?]%elem_of_cons.
Qed.

(** ** SemiLumpedCatchment.model_for *)

(** C6: [model_for] invokes a provider that can be called, with all the
    keys; a provider that cannot be called but can be indexed is indexed by
    the first key alone; any other provider is returned as it is.  So a model
    description resolves to itself, a dict resolves by the first key, and a
    function by application. *)
Theorem model_for_resolves (p : provider) (args : list string) :
  (has_call p = true ->
   exists call getitem, p = Callable call getitem /\ model_for p args = call args)
  /\ (has_call p = false -> has_getitem p = true ->
      exists getitem,
        p = Subscriptable getitem
        /\ forall k rest, args = k :: rest -> model_for p args = getitem k)
  /\ (has_call p = false -> has_getitem p = false ->
      exists m, p = Fixed m /\ model_for p args = Return m)
  /\ (forall d k m, NoDup d.*1 -> (k, m) ∈ d ->
                    model_for (of_dict d) (k :: args) = Return m).
Proof.
  split_and!.
  - destruct p as [m|call getitem|getitem]; try discriminate. eauto.
  - destruct p as [m|call getitem|getitem]; try discriminate. intros _ _.
    exists getitem. split; [done|]. by intros k rest ->.
  - destruct p as [m|call [getitem|]|getitem]; try discriminate. eauto.
  - intros d k m Hnd Hin. simpl. by apply dict_getitem_elem.
Qed.

(** C3, as stated, fails: a key that a dict provider does not have comes
    back as the [KeyError] of the lookup, not as a [ResolutionError]. *)
Lemma missing_key_is_not_a_resolution_error :
  model_for (of_dict [("H1", n.Simhyd)]) ["H2"] = Raise (KeyError "H2")
  /\ ~ (exists e, model_for (of_dict [("H1", n.Simhyd)]) ["H2"] = Raise e
                  /\ exn_class e = "ResolutionError").
Proof.
  split; [reflexivity|]. intros (e & He & Hcls).
  simpl in He. injection He as <-. discriminate Hcls.
Qed.

(** C3, amended: [model_for] raises exactly the exception its provider
    raises, unchanged: the one raised by the call of a callable provider,
    the one raised by the lookup of an indexable one (the [KeyError] of a
    dict that has no entry for the first key, an [IndexError] when no key
    was given), and it raises in no other case.  It is propagated to the
    caller and the template at hand is left as it was. *)
Theorem model_for_propagates (p : provider) (args : list string) :
  (forall e, model_for p args = Raise e <->
             (exists call getitem, p = Callable call getitem /\ call args = Raise e)
             \/ (exists getitem,
                   p = Subscriptable getitem
                   /\ (args = [] /\ e = IndexError
                       \/ exists k rest, args = k :: rest /\ getitem k = Raise e)))
  /\ (forall d k rest, args = k :: rest -> p = of_dict d -> k ∉ d.*1 ->
                       model_for p args = Raise (KeyError k))
  /\ (forall t, lift (model_for p args) t
                = match model_for p args with
                  | Return m => Return (m, t)
                  | Raise e => Raise e
                  end).
Proof.
  split_and!.
  - intros e. split.
    + destruct p as [m|call getitem|getitem]; simpl.
      * done.
      * intros He. left. eauto.
      * destruct args as [|k rest]; simpl.
        -- intros [= <-]. right. eauto.
        -- intros He. right. exists getitem. split; [done|]. right. eauto.
    + intros [(call & getitem & -> & He)|(getitem & -> & Hcase)]; [done|].
      destruct Hcase as [[-> ->]|(k & rest & -> & He)]; done.
  - intros d k rest -> -> Hk. simpl. by apply dict_getitem_missing.
  - done.
Qed.

(** ** Template code, step by step *)

Lemma insert_nodes_app ns1 ns2 ns :
  insert_nodes (ns1 ++ ns2) ns = insert_nodes ns2 (insert_nodes ns1 ns).
Proof. unfold insert_nodes. apply foldl_app. Qed.

Lemma extend_nil t : extend t [] [] = t.
Proof. destruct t. unfold extend. simpl. by rewrite app_nil_r. Qed.

Lemma extend_extend t ns1 ls1 ns2 ls2 :
  extend (extend t ns1 ls1) ns2 ls2 = extend t (ns1 ++ ns2) (ls1 ++ ls2).
Proof. unfold extend. simpl. by rewrite insert_nodes_app, app_assoc. Qed.

Lemma outcome_eq {A} ok ok' (c : tmpl A) a ns ns' ls ls' :
  outcome ok' c a ns' ls' -> ok = ok' -> ns = ns' -> ls = ls' ->
  outcome ok c a ns ls.
Proof. by intros H -> -> ->. Qed.

Lemma outcome_ret {A} (a : A) : outcome true (ret a) a [] [].
Proof. intros t. unfold ret. by rewrite extend_nil. Qed.

Lemma outcome_lift {A} (c : except A) (d : A) :
  outcome (returns c) (lift c) (value_or d c) [] [].
Proof.
  destruct c as [a|e]; simpl; intros t; unfold lift; [|done].
  by rewrite extend_nil.
Qed.

Lemma outcome_add_node m proc tgs :
  outcome true (add_node m proc tgs) (mkNode m proc tgs) [mkNode m proc tgs] [].
Proof. intros t. unfold add_node, extend. simpl. by rewrite app_nil_r. Qed.

Lemma outcome_add_link l : outcome true (add_link l) tt [] [l].
Proof. intros t. done. Qed.

Lemma outcome_bind {A B} ok1 ok2 (c : tmpl A) (k : A -> tmpl B) a b ns1 ls1 ns2 ls2 :
  outcome ok1 c a ns1 ls1 ->
  (ok1 = true -> outcome ok2 (k a) b ns2 ls2) ->
  outcome (ok1 && ok2) (tbind c k) b (ns1 ++ ns2) (ls1 ++ ls2).
Proof.
  destruct ok1; simpl; intros Hc Hk.
  - specialize (Hk eq_refl). destruct ok2; simpl in *; intros t; unfold tbind;
      rewrite Hc; [by rewrite Hk, extend_extend | apply Hk].
  - intros t. unfold tbind. specialize (Hc t). by destruct (c t) as [[]|].
Qed.

Lemma outcome_for_each {A} (xs : list A) (body : A -> tmpl unit) ok fn fl :
  (forall x, x ∈ xs -> outcome (ok x) (body x) tt (fn x) (fl x)) ->
  outcome (forallb ok xs) (for_each xs body) tt (xs ≫= fn) (xs ≫= fl).
Proof.
  induction xs as [|x xs IH]; intros Hbody; simpl.
  - exact (outcome_ret tt).
  - apply (outcome_bind (ok x) (forallb ok xs)) with (a := tt).
    + apply Hbody. by left.
    + intros _. apply IH. intros y Hy. apply Hbody. by right.
Qed.

Lemma outcome_for_acc {A S} (xs : list A) (body : A -> S -> tmpl S) ok step fn fl :
  (forall x acc, x ∈ xs -> outcome (ok x) (body x acc) (step acc x) (fn x) (fl x)) ->
  forall acc,
  outcome (forallb ok xs) (for_acc xs acc body) (foldl step acc xs) (xs ≫= fn) (xs ≫= fl).
Proof.
  induction xs as [|x xs IH]; intros Hbody acc; simpl.
  - exact (outcome_ret acc).
  - apply (outcome_bind (ok x) (forallb ok xs)) with (a := step acc x).
    + apply Hbody. by left.
    + intros _. apply IH. intros y acc' Hy. apply Hbody. by right.
Qed.

(** One step of symbolic execution of template code. *)
Ltac run_tmpl :=
  repeat first
    [ apply outcome_ret
    | apply outcome_add_link
    | apply outcome_add_node
    | apply (outcome_lift _ (Model ""))
    | eapply outcome_bind; [ | intros _; cbv beta ] ].

Lemma tbind_ext {A B} (c1 c2 : tmpl A) (k1 k2 : A -> tmpl B) :
  (forall t, c1 t = c2 t) -> (forall a t, k1 a t = k2 a t) ->
  forall t, tbind c1 k1 t = tbind c2 k2 t.
Proof.
  intros Hc Hk t. unfold tbind. rewrite Hc.
  destruct (c2 t) as [[a t']|e]; [apply Hk|done].
Qed.

Lemma for_each_ext {A} (xs : list A) (body1 body2 : A -> tmpl unit) :
  (forall x t, x ∈ xs -> body1 x t = body2 x t) ->
  forall t, for_each xs body1 t = for_each xs body2 t.
Proof.
  induction xs as [|x xs IH]; intros Hbody t; [done|]. simpl.
  apply tbind_ext.
  - intros t'. apply Hbody. by left.
  - intros _ t'. apply IH. intros y t'' Hy. apply Hbody. by right.
Qed.

Lemma build_raises {A} (c : tmpl A) (t : OWTemplate) :
  returns (c t) = false -> returns (build c t) = false.
Proof. unfold build. by destruct (c t) as [[]|]. Qed.

(** ** SemiLumpedCatchment.get_template in closed form *)

Lemma lookup_transport_nodes (self : SemiLumpedCatchment) (cs : list string)
      (acc : gmap string OWNode) (con : string) :
  con ∈ cs ->
  foldl (fun acc con => <[con := transport_node self con]> acc) acc cs !! con
  = Some (transport_node self con).
Proof.
  revert acc. induction cs as [|c cs IH]; intros acc Hin; [by inv Hin|].
  simpl. destruct (decide (con ∈ cs)) as [Hcs|Hcs]; [by apply IH|].
  apply elem_of_cons in Hin as [->|Hin]; [|done]. clear IH.
  rename c into con.
  assert (Hkeep : forall (l : list string) (m : gmap string OWNode),
             con ∉ l ->
             foldl (fun acc con => <[con := transport_node self con]> acc) m l !! con
             = m !! con).
  { induction l as [|x l IHl]; intros m Hl; [done|]. simpl.
    rewrite IHl by (intros ?; apply Hl; by right).
    apply lookup_insert_ne. intros ->. apply Hl. by left. }
  rewrite Hkeep by done. apply lookup_insert_eq.
Qed.

(** The loop over the source units of one response unit and one constituent. *)
Lemma cgu_loop_outcome (self : SemiLumpedCatchment) (hru con : string) :
  outcome (ok_con self hru con)
    (for_each (cgus_of self hru)
       (fun cgu =>
          let! m := lift (model_for (cg self) [con; cgu]) in
          let! gen_node :=
            add_node m "ConstituentGeneration" [("constituent", con); ("lu", cgu)] in
          add_link (mkLink (scale_node hru "Quickflow") "outflow" gen_node "quickflow") ;;!
          add_link (mkLink (scale_node hru "Baseflow") "outflow" gen_node "baseflow") ;;!
          add_link (mkLink gen_node "totalLoad" (transport_node self con) "lateralLoad")))
    tt (con_nodes self hru con) (cgus_of self hru ≫= cgu_links self hru con).
Proof.
  apply outcome_for_each with (ok := ok_cgu self con).
  intros cgu _. eapply outcome_eq; [run_tmpl | ..].
  - unfold ok_cgu. simpl. by rewrite andb_true_r.
  - done.
  - done.
Qed.

Lemma lookup_node_transport (self : SemiLumpedCatchment) (con : string) :
  con ∈ constituents self ->
  lookup_node
    (foldl (fun acc con => <[con := transport_node self con]> acc) ∅ (constituents self))
    con
  = Return (transport_node self con).
Proof. intros Hin. unfold lookup_node. by rewrite lookup_transport_nodes. Qed.

(** [get_template] returns the template in closed form when every provider
    resolves, and raises when one does not. *)
Theorem get_template_char (self : SemiLumpedCatchment) :
  if resolvable self then get_template self = Return (template_of self)
  else returns (get_template self) = false.
Proof.
  unfold get_template.
  match goal with
  | |- context [build ?c _] =>
      assert (H : outcome (resolvable self) c tt (node_trace self) (link_trace self))
  end.
  { eapply outcome_eq.
    - eapply outcome_bind; [apply outcome_add_node | intros _; cbv beta].
      eapply outcome_bind.
      + apply outcome_for_acc
          with (ok := ok_transport self)
               (step := fun acc con => <[con := transport_node self con]> acc)
               (fn := fun con => [transport_node self con])
               (fl := fun con =>
                        [mkLink (routing_node self) "outflow" (transport_node self con) "outflow"]).
        intros con acc _. eapply outcome_eq; [run_tmpl | ..]; [|done..].
        unfold ok_transport. simpl. by rewrite andb_true_r.
      + intros _. cbv beta.
        apply outcome_for_each
          with (ok := ok_hru self) (fn := hru_nodes self) (fl := hru_links self).
        intros hru _. eapply outcome_eq; [run_tmpl | ..].
        * apply outcome_for_each
            with (ok := ok_con self hru) (fn := con_nodes self hru) (fl := con_links self hru).
          intros con Hcon. rewrite (lookup_node_transport self con Hcon).
          eapply outcome_eq.
          -- eapply outcome_bind; [apply (outcome_lift _ (transport_node self con))|].
             intros _. cbv beta. eapply outcome_bind; [apply outcome_add_link|].
             intros _. apply cgu_loop_outcome.
          -- done.
          -- done.
          -- done.
        * done.
        * done.
        * done.
    - done.
    - done.
    - done. }
  destruct (resolvable self); simpl in H.
  - unfold build. by rewrite H.
  - by apply build_raises.
Qed.

(** A template that [get_template] returns is the template in closed form. *)
Lemma get_template_returns (self : SemiLumpedCatchment) (t : OWTemplate) :
  get_template self = Return t -> resolvable self = true /\ t = template_of self.
Proof.
  intros Ht. pose proof (get_template_char self) as Hchar.
  destruct (resolvable self).
  - split; [done|]. congruence.
  - by rewrite Ht in Hchar.
Qed.

(** ** The nodes of a template *)

Lemma insert_nodes_fresh (new ns : list OWNode) :
  NoDup (ns ++ new) -> insert_nodes new ns = ns ++ new.
Proof.
  revert ns. induction new as [|x new IH]; intros ns Hnd; simpl.
  - by rewrite app_nil_r.
  - unfold insert_node. rewrite decide_False.
    + rewrite cons_middle, app_assoc in Hnd.
      fold (insert_nodes new (ns ++ [x])). rewrite (IH _ Hnd).
      by rewrite <- app_assoc.
    + apply NoDup_app in Hnd as (_ & Hdisj & _). intros Hx.
      apply (Hdisj x Hx). by left.
Qed.



Lemma elem_of_insert_node (x nd : OWNode) (ns : list OWNode) :
  x ∈ insert_node nd ns <-> x ∈ ns \/ x = nd.
Proof.
  unfold insert_node. case_decide.
  - split; [by left|]. by intros [?| ->].
  - by rewrite elem_of_app, list_elem_of_singleton.
Qed.

Lemma elem_of_insert_nodes (x : OWNode) (new ns : list OWNode) :
  x ∈ insert_nodes new ns <-> x ∈ ns \/ x ∈ new.
Proof.
  revert ns. induction new as [|y new IH]; intros ns; simpl.
  - rewrite elem_of_nil. tauto.
  - rewrite IH, elem_of_insert_node, elem_of_cons. tauto.
Qed.

(** Nodes that differ in their process or in their tags are not in a list
    of nodes written out. *)
Ltac distinct_nodes :=
  let H := fresh in
  intros H; rewrite ?elem_of_cons, elem_of_nil in H;
  repeat (destruct H as [H|H]; [discriminate H|]); exact H.

Section Membership.

Variable self : SemiLumpedCatchment.

Lemma elem_of_cgus_of (hru cgu : string) :
  cgu ∈ cgus_of self hru <-> (cgu, hru) ∈ cgu_hrus self.
Proof.
  unfold cgus_of. rewrite list_elem_of_fmap. split.
  - intros ([c h] & -> & [Hh Hin]%list_elem_of_filter). simpl in *. by subst.
  - intros Hin. exists (cgu, hru). split; [done|].
    by apply list_elem_of_filter.
Qed.

Lemma cgus_of_NoDup (hru : string) :
  NoDup (cgu_hrus self).*1 -> NoDup (cgus_of self hru).
Proof.
  intros Hnd. unfold cgus_of. apply (sublist_NoDup _ _ Hnd).
  apply fmap_sublist, sublist_filter; apply _.
Qed.

Lemma elem_of_con_nodes (hru con : string) (nd : OWNode) :
  nd ∈ con_nodes self hru con
  <-> exists cgu, (cgu, hru) ∈ cgu_hrus self /\ nd = gen_node self con cgu.
Proof.
  unfold con_nodes. rewrite list_elem_of_bind. split.
  - intros (cgu & ->%list_elem_of_singleton & Hin%elem_of_cgus_of). eauto.
  - intros (cgu & Hin & ->). exists cgu. split; [by left|].
    by apply elem_of_cgus_of.
Qed.

Lemma elem_of_gen_nodes (hru : string) (nd : OWNode) :
  nd ∈ constituents self ≫= con_nodes self hru
  <-> exists con cgu, con ∈ constituents self /\ (cgu, hru) ∈ cgu_hrus self
                      /\ nd = gen_node self con cgu.
Proof.
  rewrite list_elem_of_bind. split.
  - intros (con & (cgu & ? & ?)%elem_of_con_nodes & ?). eauto.
  - intros (con & cgu & ? & ? & ?). exists con. split; [|done].
    apply elem_of_con_nodes. eauto.
Qed.

Lemma elem_of_hru_nodes (hru : string) (nd : OWNode) :
  nd ∈ hru_nodes self hru
  <-> nd = runoff_node self hru \/ nd = scale_node hru "Runoff"
      \/ nd = scale_node hru "Quickflow" \/ nd = scale_node hru "Baseflow"
      \/ exists con cgu, con ∈ constituents self /\ (cgu, hru) ∈ cgu_hrus self
                         /\ nd = gen_node self con cgu.
Proof.
  unfold hru_nodes. rewrite elem_of_app, elem_of_gen_nodes.
  rewrite !elem_of_cons, elem_of_nil. tauto.
Qed.

Lemma con_nodes_NoDup (hru con : string) :
  NoDup (cgu_hrus self).*1 -> NoDup (con_nodes self hru con).
Proof.
  intros Hnd. unfold con_nodes. apply NoDup_bind.
  - intros c1 c2 nd _ _ ->%list_elem_of_singleton Heq%list_elem_of_singleton.
    by inv Heq.
  - intros. apply NoDup_singleton.
  - by apply cgus_of_NoDup.
Qed.

Lemma gen_nodes_NoDup (hru : string) :
  NoDup (constituents self) -> NoDup (cgu_hrus self).*1 ->
  NoDup (constituents self ≫= con_nodes self hru).
Proof.
  intros Hcs Hnd. apply NoDup_bind; [|by intros; apply con_nodes_NoDup|done].
  intros c1 c2 nd _ _ (g1 & _ & ->)%elem_of_con_nodes (g2 & _ & Heq)%elem_of_con_nodes.
  by inv Heq.
Qed.

Lemma hru_nodes_NoDup (hru : string) :
  NoDup (constituents self) -> NoDup (cgu_hrus self).*1 ->
  NoDup (hru_nodes self hru).
Proof.
  intros Hcs Hnd. unfold hru_nodes. apply NoDup_app. split_and!.
  - repeat (apply NoDup_cons; split; [distinct_nodes|]). apply NoDup_nil_2.
  - intros nd Hin (con & cgu & _ & _ & ->)%elem_of_gen_nodes.
    rewrite !elem_of_cons, elem_of_nil in Hin.
    destruct Hin as [?|[?|[?|[?|[]]]]]; discriminate.
  - by apply gen_nodes_NoDup.
Qed.

Lemma node_trace_NoDup : well_formed self -> NoDup (node_trace self).
Proof.
  intros (Hhrus & Hcs & Hnd). unfold node_trace.
  apply NoDup_app. split_and!; [apply NoDup_singleton| |].
  { intros nd ->%list_elem_of_singleton [Hin|Hin]%elem_of_app.
    - apply list_elem_of_bind in Hin as (con & Hin%list_elem_of_singleton & _).
      discriminate.
    - apply list_elem_of_bind in Hin as (hru & Hin%elem_of_hru_nodes & _).
      destruct Hin as [?|[?|[?|[?|(con & cgu & _ & _ & ?)]]]]; discriminate. }
  apply NoDup_app. split_and!.
  - apply NoDup_bind; [|intros; apply NoDup_singleton|done].
    intros c1 c2 nd _ _ ->%list_elem_of_singleton Heq%list_elem_of_singleton.
    by inv Heq.
  - intros nd (con & ->%list_elem_of_singleton & _)%list_elem_of_bind
           (hru & Hin%elem_of_hru_nodes & _)%list_elem_of_bind.
    destruct Hin as [?|[?|[?|[?|(con' & cgu & _ & _ & ?)]]]]; discriminate.
  - apply NoDup_bind; [|by intros; apply hru_nodes_NoDup|done].
    intros h1 h2 nd _ _ H1%elem_of_hru_nodes H2%elem_of_hru_nodes.
    destruct H1 as [->|[->|[->|[->|(c1 & g1 & _ & Hg1 & ->)]]]];
      destruct H2 as [Heq|[Heq|[Heq|[Heq|(c2 & g2 & _ & Hg2 & Heq)]]]];
      try discriminate; try (by inv Heq).
    inv Heq. by eapply dict_key_unique.
Qed.

End Membership.

Lemma elem_of_node_trace (self : SemiLumpedCatchment) (nd : OWNode) :
  nd ∈ node_trace self
  <-> nd = routing_node self
      \/ (exists con, con ∈ constituents self /\ nd = transport_node self con)
      \/ (exists hru, hru ∈ hrus self /\ nd ∈ hru_nodes self hru).
Proof.
  unfold node_trace. rewrite !elem_of_app, list_elem_of_singleton, !list_elem_of_bind.
  split.
  - intros [?|[(con & ?%list_elem_of_singleton & ?)|(hru & ? & ?)]]; eauto.
  - intros [?|[(con & ? & ->)|(hru & ? & ?)]]; [eauto| |eauto].
    right; left. exists con. split; [by left|done].
Qed.

Lemma elem_of_template_nodes (self : SemiLumpedCatchment) (nd : OWNode) :
  nd ∈ nodes (template_of self) <-> nd ∈ node_trace self.
Proof.
  change (nodes (template_of self)) with (insert_nodes (node_trace self) []).
  rewrite elem_of_insert_nodes, elem_of_nil. tauto.
Qed.

(** The template of a well-formed catchment has every node of the trace
    once. *)
Lemma template_of_nodes (self : SemiLumpedCatchment) :
  well_formed self -> nodes (template_of self) = node_trace self.
Proof.
  intros Hwf. unfold template_of, extend. simpl.
  by rewrite insert_nodes_fresh by by apply node_trace_NoDup.
Qed.

Section Counting.

Variable self : SemiLumpedCatchment.

Lemma length_cgus_of (hru : string) :
  length (cgus_of self hru)
  = length (filter (fun item => item.2 = hru) (cgu_hrus self)).
Proof. unfold cgus_of. by rewrite length_fmap. Qed.

Lemma all_mapped_count :
  NoDup (hrus self) -> all_mapped self ->
  sum_list ((fun hru => length (cgus_of self hru)) <$> hrus self)
  = length (cgu_hrus self).
Proof.
  intros Hnd Hall.
  rewrite (list_fmap_ext _ (fun h => length (filter (fun item => item.2 = h) (cgu_hrus self))))
    by (intros; apply length_cgus_of).
  rewrite mapped_units_count by done. f_equal.
  unfold all_mapped in Hall. induction Hall as [|i items Hi Hall IH]; [done|].
  rewrite filter_cons_True by done. by f_equal.
Qed.

Lemma length_con_nodes (hru con : string) :
  length (con_nodes self hru con) = length (cgus_of self hru).
Proof.
  unfold con_nodes. rewrite length_bind_sum.
  rewrite (sum_list_const _ 1) by done. lia.
Qed.

Lemma length_hru_nodes (hru : string) :
  length (hru_nodes self hru)
  = 4 + length (constituents self) * length (cgus_of self hru).
Proof.
  unfold hru_nodes. rewrite length_app, length_bind_sum.
  rewrite (sum_list_const _ (length (cgus_of self hru)))
    by (intros; apply length_con_nodes).
  done.
Qed.

Lemma length_node_trace :
  length (node_trace self)
  = 1 + length (constituents self) + length (hrus self) * 4
    + length (constituents self)
      * sum_list ((fun hru => length (cgus_of self hru)) <$> hrus self).
Proof.
  unfold node_trace. rewrite !length_app, !length_bind_sum.
  rewrite (sum_list_const _ 1) by done.
  rewrite (list_fmap_ext _ (fun hru => 4 + length (constituents self) * length (cgus_of self hru)))
    by (intros; apply length_hru_nodes).
  rewrite sum_list_affine. simpl. lia.
Qed.

End Counting.

Section Roles.

Variable self : SemiLumpedCatchment.

Lemma length_with_process_con_nodes (p hru con : string) :
  length (with_process p (con_nodes self hru con))
  = if decide ("ConstituentGeneration" = p) then length (cgus_of self hru) else 0.
Proof.
  unfold with_process, con_nodes. rewrite filter_bind.
  rewrite (bind_ext_elem _ (fun cgu => if decide ("ConstituentGeneration" = p)
                                       then [gen_node self con cgu] else []))
    by (intros; by rewrite filter_cons, filter_nil).
  rewrite length_bind_if. case_decide; [|done].
  rewrite length_bind_sum, (sum_list_const _ 1) by done. lia.
Qed.

Lemma length_with_process_hru_nodes (p hru : string) :
  length (with_process p (hru_nodes self hru))
  = (if decide ("RR" = p) then 1 else 0)
    + (if decide ("ArealScale" = p) then 3 else 0)
    + (if decide ("ConstituentGeneration" = p)
       then length (constituents self) * length (cgus_of self hru) else 0).
Proof.
  unfold with_process, hru_nodes. rewrite filter_app, length_app, filter_bind.
  rewrite length_bind_sum.
  rewrite (sum_list_const _ (if decide ("ConstituentGeneration" = p)
                             then length (cgus_of self hru) else 0))
    by (intros; apply length_with_process_con_nodes).
  rewrite !filter_cons, filter_nil. simpl process.
  repeat case_decide; simpl; try lia; congruence.
Qed.

Lemma length_with_process_node_trace (p : string) :
  length (with_process p (node_trace self))
  = (if decide ("FlowRouting" = p) then 1 else 0)
    + (if decide ("ConstituentRouting" = p) then length (constituents self) else 0)
    + (if decide ("RR" = p) then length (hrus self) else 0)
    + (if decide ("ArealScale" = p) then 3 * length (hrus self) else 0)
    + (if decide ("ConstituentGeneration" = p)
       then length (constituents self)
            * sum_list ((fun hru => length (cgus_of self hru)) <$> hrus self)
       else 0).
Proof.
  unfold with_process, node_trace.
  rewrite !filter_app, !length_app, !filter_bind.
  rewrite (filter_singleton_if (fun nd => process nd = p)).
  rewrite (bind_ext_elem _ (fun con => if decide ("ConstituentRouting" = p)
                                       then [transport_node self con] else []))
    by (intros; by rewrite filter_cons, filter_nil).
  rewrite length_bind_if, (length_bind_sum (fun con => [transport_node self con])).
  rewrite (sum_list_const _ 1) by done.
  rewrite (length_bind_sum (fun hru => filter _ (hru_nodes self hru))).
  rewrite (list_fmap_ext _
             (fun hru => ((if decide ("RR" = p) then 1 else 0)
                          + (if decide ("ArealScale" = p) then 3 else 0))
                         + (if decide ("ConstituentGeneration" = p)
                            then length (constituents self) else 0)
                           * length (cgus_of self hru))).
  - rewrite sum_list_affine. simpl process.
    repeat case_decide; simpl; try lia; congruence.
  - intros _ hru _. fold (with_process p (hru_nodes self hru)).
    rewrite length_with_process_hru_nodes. repeat case_decide; lia.
Qed.

End Roles.

Lemma well_formed_holds (self : SemiLumpedCatchment) :
  bool_decide (NoDup (hrus self)) && bool_decide (NoDup (constituents self))
  && bool_decide (NoDup (cgu_hrus self).*1) = true ->
  well_formed self.
Proof.
  intros H. apply andb_true_iff in H as [H H3]. apply andb_true_iff in H as [H1 H2].
  apply bool_decide_eq_true in H1, H2, H3. by split_and!.
Qed.

Lemma all_mapped_holds (self : SemiLumpedCatchment) :
  forallb (fun item => bool_decide (item.2 ∈ hrus self)) (cgu_hrus self) = true ->
  all_mapped self.
Proof.
  intros H. apply Forall_forall. intros item Hin.
  rewrite forallb_forall in H. apply list_elem_of_In, H in Hin.
  by apply bool_decide_eq_true in Hin.
Qed.

(** ** SemiLumpedCatchment.get_template: the number of nodes *)

(** C1, as stated, fails: with two constituents, one response unit and one
    source unit the template has 9 nodes, not 1 + 2 + 1*(1 + 3) + 1 = 8: a
    generation node is added for every constituent and source unit. *)
Lemma node_count_not_per_source_unit :
  all_mapped two_constituents /\
  exists t, get_template two_constituents = Return t
            /\ length (nodes t) = 9
            /\ length (nodes t)
               <> 1 + length (constituents two_constituents)
                  + length (hrus two_constituents) * (1 + 3)
                  + length (cgu_hrus two_constituents).
Proof.
  split; [by apply all_mapped_holds|].
  eexists. split; [vm_compute; reflexivity|]. split; [reflexivity|].
  vm_compute. discriminate.
Qed.

(** C1, amended: for a well-formed catchment whose source units are all
    mapped onto its response units and whose providers resolve,
    [get_template] returns a template of exactly
    1 + C + R*(1 + 3) + C*S nodes, where R, C and S are the numbers of
    response units, constituents and source units: the routing node, a
    transport node per constituent, a runoff node and three scaling nodes
    per response unit, and a generation node per constituent and source
    unit. *)
Theorem get_template_node_count (self : SemiLumpedCatchment) :
  well_formed self -> all_mapped self -> resolvable self = true ->
  exists t, get_template self = Return t
            /\ length (nodes t)
               = 1 + length (constituents self) + length (hrus self) * (1 + 3)
                 + length (constituents self) * length (cgu_hrus self)
            /\ length (with_process "FlowRouting" (nodes t)) = 1
            /\ length (with_process "ConstituentRouting" (nodes t))
               = length (constituents self)
            /\ length (with_process "RR" (nodes t)) = length (hrus self)
            /\ length (with_process "ArealScale" (nodes t)) = 3 * length (hrus self)
            /\ length (with_process "ConstituentGeneration" (nodes t))
               = length (constituents self) * length (cgu_hrus self).
Proof.
  intros Hwf Hall Hok. pose proof (get_template_char self) as Hchar.
  rewrite Hok in Hchar. exists (template_of self). split; [done|].
  rewrite template_of_nodes by done.
  rewrite length_node_trace, !length_with_process_node_trace.
  destruct Hwf as (Hhrus & _ & _). rewrite all_mapped_count by done.
  split_and!; repeat case_decide; try discriminate; try done; lia.
Qed.

Lemma get_template_node_count_witness :
  exists t, get_template mixed_catchment = Return t
            /\ length (nodes t) = 1 + 2 + 2 * (1 + 3) + 2 * 3
            /\ length (with_process "ConstituentGeneration" (nodes t)) = 2 * 3.
Proof.
  destruct (get_template_node_count mixed_catchment)
    as (t & Ht & Hcount & _ & _ & _ & _ & Hgen).
  - apply well_formed_holds. vm_compute. reflexivity.
  - apply all_mapped_holds. vm_compute. reflexivity.
  - vm_compute. reflexivity.
  - exists t. by split_and!.
Defined.

(** ** SemiLumpedCatchment.get_template: the scenario *)

(** C4: the catchment with response units [H1], source units {S1: H1} and
    constituents [N].  Whenever its providers resolve, [get_template]
    returns the template of the seven nodes Routing, Transport(N),
    Runoff(H1), Scale(H1,Runoff), Scale(H1,Quickflow), Scale(H1,Baseflow)
    and Generation(N,S1), and of the nine links of the scenario, and of
    nothing else. *)
Theorem end_to_end_scenario (cgus0 : list string) (rr0 cg0 transport0 : provider)
        (routing0 mt mr mg : model) :
  model_for transport0 ["N"] = Return mt ->
  model_for rr0 ["H1"] = Return mr ->
  model_for cg0 ["N"; "S1"] = Return mg ->
  let Routing := mkNode routing0 "FlowRouting" [] in
  let Transport := mkNode mt "ConstituentRouting" [("constituent", "N")] in
  let Runoff := mkNode mr "RR" [("hru", "H1")] in
  let Scale := fun comp =>
    mkNode n.DepthToRate "ArealScale" [("hru", "H1"); ("component", comp)] in
  let Generation :=
    mkNode mg "ConstituentGeneration" [("constituent", "N"); ("lu", "S1")] in
  get_template
    {| hrus := ["H1"]; cgus := cgus0; cgu_hrus := [("S1", "H1")];
       constituents := ["N"];
       rr := rr0; cg := cg0; routing := routing0; transport := transport0 |}
  = Return
      {| nodes := [Routing; Transport; Runoff; Scale "Runoff"; Scale "Quickflow";
                   Scale "Baseflow"; Generation];
         links :=
           [mkLink Routing "outflow" Transport "outflow";
            mkLink Runoff "runoff" (Scale "Runoff") "input";
            mkLink Runoff "quickflow" (Scale "Quickflow") "input";
            mkLink Runoff "baseflow" (Scale "Baseflow") "input";
            mkLink (Scale "Runoff") "outflow" Routing "lateral";
            mkLink (Scale "Runoff") "outflow" Transport "inflow";
            mkLink (Scale "Quickflow") "outflow" Generation "quickflow";
            mkLink (Scale "Baseflow") "outflow" Generation "baseflow";
            mkLink Generation "totalLoad" Transport "lateralLoad"] |}.
Proof.
  intros Ht Hr Hg. cbv zeta.
  match goal with |- get_template ?d = _ => set (self := d) end.
  assert (Hok : resolvable self = true).
  { unfold resolvable, ok_hru, ok_con, ok_cgu, ok_transport. simpl.
    by rewrite Ht, Hr, Hg. }
  assert (Hwf : well_formed self).
  { apply well_formed_holds. vm_compute. reflexivity. }
  pose proof (get_template_char self) as Hchar. rewrite Hok in Hchar.
  rewrite Hchar. f_equal.
  pose proof (template_of_nodes self Hwf) as Hnodes.
  destruct (template_of self) as [ns ls] eqn:Htmpl. simpl in Hnodes. subst ns.
  assert (Hls : ls = links (template_of self)) by by rewrite Htmpl.
  rewrite Hls. unfold template_of, extend, node_trace, link_trace, hru_nodes, hru_links,
    con_nodes, con_links, cgu_links, transport_node, runoff_node, gen_node, routing_node,
    scale_node, resolved.
  simpl. by rewrite Ht, Hr, Hg.
Qed.

Lemma end_to_end_scenario_witness :
  exists t, get_template scenario = Return t
            /\ length (nodes t) = 7 /\ length (links t) = 9.
Proof.
  eexists. split.
  - apply (end_to_end_scenario ["S1"] (Fixed n.Simhyd) (Fixed n.EmcDwc)
             (Fixed n.LumpedConstituentRouting) n.Muskingum
             n.LumpedConstituentRouting n.Simhyd n.EmcDwc); reflexivity.
  - split; reflexivity.
Defined.

(** ** SemiLumpedCatchment.get_template: source units mapped nowhere *)

Lemma cgus_of_prune (self : SemiLumpedCatchment) (hru : string) :
  hru ∈ hrus self -> cgus_of (prune self) hru = cgus_of self hru.
Proof.
  intros Hin. unfold cgus_of, prune. simpl. f_equal.
  rewrite list_filter_filter. apply list_filter_iff.
  intros [c h]. simpl. split; [tauto|]. intros ->. done.
Qed.

(** C2, as stated, fails: a source unit mapped onto a response unit that the
    catchment does not have raises nothing; [get_template] returns a
    template, without a generation node for that source unit. *)
Lemma dangling_mapping_accepted :
  let self :=
    {| hrus := ["H1"]; cgus := ["S1"]; cgu_hrus := [("S1", "H2")];
       constituents := ["N"];
       rr := Fixed n.Simhyd; cg := Fixed n.EmcDwc;
       routing := n.Muskingum; transport := Fixed n.LumpedConstituentRouting |} in
  dangling self
  /\ (exists t, get_template self = Return t /\ length (nodes t) = 6)
  /\ ~ (exists e, get_template self = Raise e /\ exn_class e = "StructureError").
Proof.
  split_and!.
  - exists "S1", "H2". split; [by left|]. by intros ?%list_elem_of_singleton.
  - eexists. split; [vm_compute; reflexivity|reflexivity].
  - intros (e & He & _). vm_compute in He. discriminate He.
Qed.

(** C2, amended: a source unit mapped onto a response unit that the
    catchment does not have is skipped: [get_template] does what it does for
    the catchment without those entries of the mapping.  It raises only when
    a provider does not resolve, and then no template is returned; a
    dangling mapping alone raises nothing. *)
Theorem get_template_skips_dangling (self : SemiLumpedCatchment) :
  get_template self = get_template (prune self)
  /\ returns (get_template self) = resolvable self.
Proof.
  split.
  - unfold get_template, build.
    match goal with
    | |- match ?c1 _ with _ => _ end = match ?c2 _ with _ => _ end =>
        assert (Hext : forall t, c1 t = c2 t); [|by rewrite Hext]
    end.
    apply tbind_ext; [done|]. intros routing_node.
    apply tbind_ext; [done|]. intros transport_nodes.
    apply for_each_ext. intros hru t Hin.
    rewrite (cgus_of_prune self hru Hin). done.
  - pose proof (get_template_char self) as Hchar.
    destruct (resolvable self); [by rewrite Hchar|done].
Qed.

(** ** Providers that resolve *)

Section Resolved.

Variable self : SemiLumpedCatchment.
Hypothesis Hok : resolvable self = true.

Lemma resolvable_transport (con : string) :
  con ∈ constituents self ->
  model_for (transport self) [con] = Return (resolved (transport self) [con]).
Proof.
  intros Hcon. unfold resolvable in Hok. apply andb_true_iff in Hok as [Ht _].
  rewrite forallb_forall in Ht. apply list_elem_of_In, Ht in Hcon.
  unfold ok_transport in Hcon. unfold resolved.
  by destruct (model_for (transport self) [con]).
Qed.

Lemma resolvable_hru (hru : string) : hru ∈ hrus self -> ok_hru self hru = true.
Proof.
  intros Hhru. unfold resolvable in Hok. apply andb_true_iff in Hok as [_ Hh].
  rewrite forallb_forall in Hh. by apply Hh, list_elem_of_In.
Qed.

Lemma resolvable_rr (hru : string) :
  hru ∈ hrus self ->
  model_for (rr self) [hru] = Return (resolved (rr self) [hru]).
Proof.
  intros Hhru%resolvable_hru. unfold ok_hru in Hhru.
  apply andb_true_iff in Hhru as [Hr _]. unfold resolved.
  by destruct (model_for (rr self) [hru]).
Qed.

Lemma resolvable_cg (hru con cgu : string) :
  hru ∈ hrus self -> con ∈ constituents self -> (cgu, hru) ∈ cgu_hrus self ->
  model_for (cg self) [con; cgu] = Return (resolved (cg self) [con; cgu]).
Proof.
  intros Hhru%resolvable_hru Hcon Hcgu%elem_of_cgus_of. unfold ok_hru in Hhru.
  apply andb_true_iff in Hhru as [_ Hc]. rewrite forallb_forall in Hc.
  apply list_elem_of_In, Hc in Hcon. unfold ok_con in Hcon.
  rewrite forallb_forall in Hcon. apply list_elem_of_In, Hcon in Hcgu.
  unfold ok_cgu in Hcgu. unfold resolved.
  by destruct (model_for (cg self) [con; cgu]).
Qed.

End Resolved.

(** ** SemiLumpedCatchment.get_template: the declared source units *)

(** C10: the template depends on the mapping [cgu_hrus] and not on the list
    [cgus].  Two catchments that differ only in [cgus] get the same result,
    and when every provider resolves that result is a template.  The
    generation nodes of a template are exactly the nodes of a constituent
    and a key of the mapping whose value is a response unit of the
    catchment, each with the model its provider gives for the constituent
    and the key; and a source unit that is not a key of the mapping, listed
    in [cgus] or not, has no node. *)
Theorem get_template_ignores_cgus (d1 d2 : SemiLumpedCatchment) :
  same_but_cgus d1 d2 ->
  get_template d1 = get_template d2
  /\ (resolvable d1 = true ->
      exists t, get_template d1 = Return t /\ get_template d2 = Return t)
  /\ forall t, get_template d1 = Return t ->
       (forall nd,
          nd ∈ nodes t /\ process nd = "ConstituentGeneration"
          <-> exists con cgu hru,
                con ∈ constituents d1 /\ hru ∈ hrus d1
                /\ (cgu, hru) ∈ cgu_hrus d1 /\ nd = gen_node d1 con cgu)
       /\ (forall cgu nd,
             cgu ∉ (cgu_hrus d1).*1 -> nd ∈ nodes t -> ("lu", cgu) ∉ tags nd)
       /\ (forall con cgu hru,
             con ∈ constituents d1 -> hru ∈ hrus d1 -> (cgu, hru) ∈ cgu_hrus d1 ->
             exists m, model_for (cg d1) [con; cgu] = Return m
                       /\ mkNode m "ConstituentGeneration"
                                 [("constituent", con); ("lu", cgu)] ∈ nodes t).
Proof.
  intros (Hh & Hm & Hc & Hrr & Hcg & Hr & Ht).
  assert (Heq : get_template d1 = get_template d2).
  { destruct d1, d2. simpl in *. by subst. }
  split; [done|]. split.
  { intros Hok. exists (template_of d1). rewrite <- Heq.
    pose proof (get_template_char d1) as Hchar. rewrite Hok in Hchar. done. }
  intros t [Hok ->]%get_template_returns. split_and!.
  - intros nd. rewrite elem_of_template_nodes, elem_of_node_trace. split.
    + intros [[->|[(con & _ & ->)|(hru & Hhru & Hin)]] Hproc]; try discriminate.
      apply elem_of_hru_nodes in Hin
        as [->|[->|[->|[->|(con & cgu & ? & ? & ->)]]]]; try discriminate.
      by exists con, cgu, hru.
    + intros (con & cgu & hru & Hcon & Hhru & Hin & ->). split; [|done].
      right; right. exists hru. split; [done|].
      apply elem_of_hru_nodes. do 4 right. eauto.
  - intros cgu nd Hkey Hnd%elem_of_template_nodes%elem_of_node_trace Htag.
    destruct Hnd as [->|[(con & _ & ->)|(hru & Hhru & Hin)]].
    + by apply elem_of_nil in Htag.
    + apply list_elem_of_singleton in Htag. discriminate.
    + apply elem_of_hru_nodes in Hin
        as [->|[->|[->|[->|(con & cgu' & ? & Hin & ->)]]]]; simpl in Htag;
        rewrite ?elem_of_cons, elem_of_nil in Htag.
      1-4: destruct Htag as [?|[?|[]]] || destruct Htag as [?|[]]; discriminate.
      destruct Htag as [?|[Heq'|[]]]; [discriminate|].
      injection Heq' as Heq'. subst cgu'.
      apply Hkey, list_elem_of_fmap. by exists (cgu, hru).
  - intros con cgu hru Hcon Hhru Hin.
    exists (resolved (cg d1) [con; cgu]).
    split; [by apply (resolvable_cg d1 Hok hru)|].
    apply elem_of_template_nodes, elem_of_node_trace.
    right; right. exists hru. split; [done|].
    apply elem_of_hru_nodes. do 4 right. by exists con, cgu.
Qed.

(** The source unit [Oats] is listed in [cgus] and is no key of the mapping:
    the catchment gets the template of the scenario, with the generation
    node of [S1] and no node of [Oats]. *)
Lemma get_template_ignores_cgus_witness :
  exists t,
    get_template undeclared_mapping = Return t /\ get_template scenario = Return t
    /\ mkNode n.EmcDwc "ConstituentGeneration" [("constituent", "N"); ("lu", "S1")]
         ∈ nodes t
    /\ (forall nd, nd ∈ nodes t -> ("lu", "Oats") ∉ tags nd).
Proof.
  assert (Hsame : same_but_cgus undeclared_mapping scenario).
  { unfold same_but_cgus. simpl. by split_and!. }
  destruct (get_template_ignores_cgus undeclared_mapping scenario Hsame)
    as (_ & Hex & Hchar).
  destruct (Hex eq_refl) as (t & Ht1 & Ht2).
  destruct (Hchar t Ht1) as (_ & Hno & Hgen).
  exists t. split; [exact Ht1|]. split; [exact Ht2|]. split.
  - destruct (Hgen "N" "S1" "H1") as (m & Hm & Hin).
    + apply list_elem_of_In. left. reflexivity.
    + apply list_elem_of_In. left. reflexivity.
    + apply list_elem_of_In. left. reflexivity.
    + injection Hm as <-. exact Hin.
  - intros nd. apply Hno. intros Hin. apply list_elem_of_In in Hin.
    destruct Hin as [Hin|[]]. discriminate Hin.
Defined.

(** ** SemiLumpedCatchment.get_template: equal catchments *)

Section Reordered.

Variables (hs cs l1 l2 : list string) (m1 m2 : list (string * string)).
Variables (prr pcg ptr : provider) (mrt : model).
Hypothesis Hperm : m1 ≡ₚ m2.

Let d1 := mkCatchment hs l1 m1 cs prr pcg mrt ptr.
Let d2 := mkCatchment hs l2 m2 cs prr pcg mrt ptr.






End Reordered.




(** ** SemiLumpedCatchment.get_template: the links into a port *)

(** Keep the links of a written-out list that arrive at the port asked for. *)
Ltac filter_links :=
  repeat first
    [ rewrite filter_cons_False by (simpl; intros [_ ?]; discriminate)
    | rewrite filter_cons_True by (simpl; done) ];
  rewrite ?filter_nil.

Section Ports.

Variable self : SemiLumpedCatchment.

Lemma transport_node_inj (c1 c2 : string) :
  transport_node self c1 = transport_node self c2 -> c1 = c2.
Proof. by intros [= _ ->]. Qed.

Lemma incoming_lateral :
  incoming (template_of self) (routing_node self) "lateral"
  = hrus self ≫=
      (fun hru => [mkLink (scale_node hru "Runoff") "outflow" (routing_node self) "lateral"]).
Proof.
  unfold incoming, template_of, extend. simpl. unfold link_trace.
  rewrite filter_app, !filter_bind.
  rewrite (bind_ext_elem _ (fun _ => [])), bind_nothing
    by (intros con _; by filter_links).
  simpl. apply bind_ext_elem. intros hru _. unfold hru_links.
  rewrite filter_app, filter_bind. filter_links.
  rewrite (bind_ext_elem _ (fun _ => [])), bind_nothing; [done|].
  intros con _. unfold con_links. rewrite filter_app, filter_bind. filter_links.
  rewrite (bind_ext_elem _ (fun _ => [])), bind_nothing; [done|].
  intros cgu _. unfold cgu_links. by filter_links.
Qed.

Lemma incoming_inflow (con : string) :
  NoDup (constituents self) -> con ∈ constituents self ->
  incoming (template_of self) (transport_node self con) "inflow"
  = hrus self ≫=
      (fun hru =>
         [mkLink (scale_node hru "Runoff") "outflow" (transport_node self con) "inflow"]).
Proof.
  intros Hnd Hin. unfold incoming, template_of, extend. simpl. unfold link_trace.
  rewrite filter_app, !filter_bind.
  rewrite (bind_ext_elem _ (fun _ => [])), bind_nothing
    by (intros c _; by filter_links).
  simpl. apply bind_ext_elem. intros hru _. unfold hru_links.
  rewrite filter_app, filter_bind. filter_links. simpl.
  rewrite <- (bind_select
                (fun c => [mkLink (scale_node hru "Runoff") "outflow"
                                  (transport_node self c) "inflow"])
                con (constituents self)) by done.
  apply bind_ext_elem. intros c _. unfold con_links.
  rewrite filter_app, filter_bind.
  rewrite (bind_ext_elem _ (fun _ => [])), bind_nothing, app_nil_r
    by (intros cgu _; unfold cgu_links; by filter_links).
  destruct (decide (c = con)) as [->|Hne].
  - by rewrite filter_cons_True.
  - rewrite filter_cons_False; [done|].
    intros [Heq%transport_node_inj _]. done.
Qed.

Lemma incoming_lateralLoad (con : string) :
  NoDup (constituents self) -> con ∈ constituents self ->
  incoming (template_of self) (transport_node self con) "lateralLoad"
  = hrus self ≫=
      (fun hru =>
         cgus_of self hru ≫=
           (fun cgu => [mkLink (gen_node self con cgu) "totalLoad"
                               (transport_node self con) "lateralLoad"])).
Proof.
  intros Hnd Hin. unfold incoming, template_of, extend. simpl. unfold link_trace.
  rewrite filter_app, !filter_bind.
  rewrite (bind_ext_elem _ (fun _ => [])), bind_nothing
    by (intros c _; by filter_links).
  simpl. apply bind_ext_elem. intros hru _. unfold hru_links.
  rewrite filter_app, filter_bind. filter_links. simpl.
  rewrite <- (bind_select
                (fun c => cgus_of self hru ≫=
                            (fun cgu => [mkLink (gen_node self c cgu) "totalLoad"
                                                (transport_node self c) "lateralLoad"]))
                con (constituents self)) by done.
  apply bind_ext_elem. intros c _. unfold con_links.
  rewrite filter_app, filter_bind. filter_links. simpl.
  destruct (decide (c = con)) as [->|Hne].
  - apply bind_ext_elem. intros cgu _. unfold cgu_links. by filter_links.
  - rewrite (bind_ext_elem _ (fun _ => [])), bind_nothing; [done|].
    intros cgu _. unfold cgu_links. filter_links.
    rewrite filter_cons_False; [done|].
    intros [Heq%transport_node_inj _]. done.
Qed.

End Ports.

(** The source units, response unit by response unit, are the keys of the
    mapping in another order. *)
Lemma grouped_source_units (self : SemiLumpedCatchment) :
  well_formed self -> all_mapped self ->
  hrus self ≫= cgus_of self ≡ₚ (cgu_hrus self).*1.
Proof.
  intros (Hhrus & _ & Hkeys) Hall. apply NoDup_Permutation; [|done|].
  - apply NoDup_bind; [|by intros; apply cgus_of_NoDup|done].
    intros h1 h2 cgu _ _ H1%elem_of_cgus_of H2%elem_of_cgus_of.
    by eapply dict_key_unique.
  - intros cgu. rewrite list_elem_of_bind, list_elem_of_fmap. split.
    + intros (hru & Hin%elem_of_cgus_of & _). by exists (cgu, hru).
    + intros ([c h] & -> & Hin). exists h. split; [by apply elem_of_cgus_of|].
      unfold all_mapped in Hall. rewrite Forall_forall in Hall.
      apply (Hall _ Hin).
Qed.

(** C7: in the template of a well-formed catchment whose source units are
    all mapped onto its response units and whose providers resolve, the
    routing node and the transport node of every constituent are nodes of
    the template, the [lateral] port of the routing
    node receives one link per response unit, from the runoff scaling node
    of that unit; the [inflow] port of every transport node receives one
    link per response unit, from the same scaling nodes; and the
    [lateralLoad] port of the transport node of a constituent receives one
    link per source unit, from the generation node of the constituent and
    that source unit. *)
Theorem port_aggregation (self : SemiLumpedCatchment) :
  well_formed self -> all_mapped self -> resolvable self = true ->
  exists t,
    get_template self = Return t
    /\ routing_node self ∈ nodes t
    /\ length (incoming t (routing_node self) "lateral") = length (hrus self)
    /\ from_node <$> incoming t (routing_node self) "lateral"
       = (fun hru => scale_node hru "Runoff") <$> hrus self
    /\ forall con, con ∈ constituents self ->
         transport_node self con ∈ nodes t
         /\ model_for (transport self) [con]
            = Return (model_type (transport_node self con))
         /\ length (incoming t (transport_node self con) "inflow") = length (hrus self)
         /\ from_node <$> incoming t (transport_node self con) "inflow"
            = (fun hru => scale_node hru "Runoff") <$> hrus self
         /\ length (incoming t (transport_node self con) "lateralLoad")
            = length (cgu_hrus self)
         /\ from_node <$> incoming t (transport_node self con) "lateralLoad"
            ≡ₚ gen_node self con <$> (cgu_hrus self).*1.
Proof.
  intros Hwf Hall Hok. pose proof (get_template_char self) as Hchar.
  rewrite Hok in Hchar. exists (template_of self). split; [done|].
  assert (Hlat : from_node <$> incoming (template_of self) (routing_node self) "lateral"
                 = (fun hru => scale_node hru "Runoff") <$> hrus self).
  { by rewrite incoming_lateral, fmap_bind_singleton. }
  split_and!; [| |done|].
  { apply elem_of_template_nodes, elem_of_node_trace. by left. }
  { by rewrite <- (length_fmap from_node), Hlat, length_fmap. }
  intros con Hcon. destruct Hwf as (Hhrus & Hcs & Hkeys).
  assert (Hnode : transport_node self con ∈ nodes (template_of self)).
  { apply elem_of_template_nodes, elem_of_node_trace. right; left. eauto. }
  assert (Hmodel : model_for (transport self) [con]
                   = Return (model_type (transport_node self con))).
  { unfold resolvable in Hok. apply andb_true_iff in Hok as [Hok _].
    rewrite forallb_forall in Hok. apply list_elem_of_In, Hok in Hcon.
    unfold ok_transport in Hcon. simpl. unfold resolved.
    by destruct (model_for (transport self) [con]). }
  assert (Hin : from_node <$> incoming (template_of self) (transport_node self con) "inflow"
                = (fun hru => scale_node hru "Runoff") <$> hrus self).
  { by rewrite incoming_inflow, fmap_bind_singleton. }
  assert (Hload : from_node
                    <$> incoming (template_of self) (transport_node self con) "lateralLoad"
                  ≡ₚ gen_node self con <$> (cgu_hrus self).*1).
  { rewrite incoming_lateralLoad, fmap_bind_bind_singleton by done. simpl.
    apply fmap_Permutation, grouped_source_units; [by split_and!|done]. }
  split_and!; [done|done| |done| |done].
  - by rewrite <- (length_fmap from_node), Hin, length_fmap.
  - rewrite <- (length_fmap from_node), Hload. by rewrite !length_fmap.
Qed.

Lemma port_aggregation_witness :
  exists t,
    get_template mixed_catchment = Return t
    /\ length (incoming t (routing_node mixed_catchment) "lateral") = 2
    /\ length (incoming t (transport_node mixed_catchment "P") "inflow") = 2
    /\ length (incoming t (transport_node mixed_catchment "P") "lateralLoad") = 3.
Proof.
  destruct (port_aggregation mixed_catchment) as (t & Ht & _ & Hlat & _ & Hcon).
  - apply well_formed_holds. vm_compute. reflexivity.
  - apply all_mapped_holds. vm_compute. reflexivity.
  - vm_compute. reflexivity.
  - exists t. destruct (Hcon "P") as (_ & _ & Hin & _ & Hload & _).
    + apply list_elem_of_In. right; left. reflexivity.
    + by split_and!.
Defined.

(** ** SemiLumpedCatchment.link_catchments *)

Lemma constituent_linkages_returns (self : SemiLumpedCatchment) (tname : string)
      (cs : list string) :
  provider_name (transport self) = Return tname -> plain tname = true ->
  constituent_linkages self cs
  = Return ((fun c => ("%d-ConstituentRouting-" +:+ c +:+ " (" +:+ tname +:+ ")",
                       "outflowLoad", "inflowLoad")) <$> cs).
Proof.
  intros Hname Ht. induction cs as [|c cs IH]; [done|].
  cbn [constituent_linkages]. rewrite Hname. cbn [bind].
  rewrite (format_load_template tname c Ht). cbn [bind].
  by rewrite IH.
Qed.

Lemma link_loop_labels (ls : list (string * string * string))
      (label : string * string * string -> Z -> string)
      (upstream downstream : operand) (u d : Z) (graph : digraph) :
  (forall l, l ∈ ls -> percent l.1.1 upstream = Return (label l u)
                       /\ percent l.1.1 downstream = Return (label l d)) ->
  link_loop ls upstream downstream graph
  = (Return tt,
     graph ++ ((fun l => mkEdge (label l d) (label l u) [l.1.2] [l.2]) <$> ls)).
Proof.
  revert graph. induction ls as [|[[lt src] dest] ls IH]; intros graph Hfmt.
  - cbn [link_loop]. by rewrite app_nil_r.
  - cbn [link_loop].
    destruct (Hfmt (lt, src, dest) ltac:(by left)) as [Hu Hd].
    cbn [fst snd] in Hu, Hd. rewrite Hu, Hd.
    rewrite IH by (intros l Hl; apply Hfmt; by right).
    unfold add_edge. by rewrite <- app_assoc.
Qed.

Lemma link_loop_returns (ls : list (string * string * string))
      (label : string * string * string -> Z -> string)
      (upstream downstream : Z) (graph : digraph) :
  (forall l z, l ∈ ls -> format l.1.1 [PyInt z] = Return (label l z)) ->
  link_loop ls (PyInt upstream) (PyInt downstream) graph
  = (Return tt,
     graph ++ ((fun l => mkEdge (label l downstream) (label l upstream) [l.1.2] [l.2])
                 <$> ls)).
Proof.
  intros Hfmt. apply link_loop_labels. intros l Hl.
  rewrite !percent_single. split; by apply Hfmt.
Qed.

Lemma link_loop_edges (ls : list (string * string * string))
      (upstream downstream : operand) (graph : digraph) :
  fst (link_loop ls upstream downstream graph) = Return tt ->
  exists added,
    snd (link_loop ls upstream downstream graph) = graph ++ added
    /\ Forall2 (edge_of upstream downstream) ls added.
Proof.
  revert graph. induction ls as [|[[lt src] dest] ls IH]; intros graph.
  - intros _. exists []. cbn [link_loop snd]. by rewrite app_nil_r.
  - cbn [link_loop].
    destruct (percent lt upstream) as [dest_node|e] eqn:Hu; [|done].
    destruct (percent lt downstream) as [src_node|e] eqn:Hd; [|done].
    intros (added & -> & Hall)%IH.
    exists (mkEdge src_node dest_node [src] [dest] :: added). split.
    + unfold add_edge. by rewrite <- app_assoc.
    + constructor; [|done]. by split_and!.
Qed.

Lemma constituent_linkages_ports (self : SemiLumpedCatchment) (cs : list string)
      (ls : list (string * string * string)) :
  constituent_linkages self cs = Return ls ->
  length ls = length cs
  /\ Forall (fun l => l.1.2 = "outflowLoad" /\ l.2 = "inflowLoad") ls.
Proof.
  revert ls. induction cs as [|c cs IH]; intros ls; cbn [constituent_linkages].
  - by intros [= <-].
  - destruct (provider_name (transport self)) as [tname|e]; cbn [bind]; [|done].
    destruct (format _ [PyStr c]) as [lt|e]; cbn [bind]; [|done].
    destruct (constituent_linkages self cs) as [rest|e]; cbn [bind]; [|done].
    intros [= <-]. destruct (IH rest eq_refl) as [Hlen Hports].
    split; [by rewrite !length_cons, Hlen|]. by constructor.
Qed.

(** C5: a call of [link_catchments] that returns has added exactly 1 + C
    edges to the graph, C being the number of constituents: one edge per
    linkage, the flow linkage first and then a linkage per constituent.  The
    source of an edge is the label resolved against the downstream
    identifier and its destination the label resolved against the upstream
    one; the flow edge records the ports [outflow] and [inflow], a
    constituent edge the ports [outflowLoad] and [inflowLoad].  The call
    does return, with the labels written out, when the identifiers are
    numbers, the transport model has a name and the names and constituents
    have no [%] in them. *)
Theorem link_catchments_edges (self : SemiLumpedCatchment) (graph : digraph)
        (upstream downstream : operand) :
  (fst (link_catchments self graph upstream downstream) = Return tt ->
   exists ls added rest,
     linkages self = Return ls
     /\ snd (link_catchments self graph upstream downstream) = graph ++ added
     /\ length added = 1 + length (constituents self)
     /\ Forall2 (edge_of upstream downstream) ls added
     /\ ls = ("%d-FlowRouting (" +:+ name (routing self) +:+ ")", "outflow", "inflow")
              :: rest
     /\ Forall (fun l => l.1.2 = "outflowLoad" /\ l.2 = "inflowLoad") rest)
  /\ (forall u d tname,
        upstream = PyInt u -> downstream = PyInt d ->
        provider_name (transport self) = Return tname ->
        plain (name (routing self)) = true -> plain tname = true ->
        forallb plain (constituents self) = true ->
        link_catchments self graph upstream downstream
        = (Return tt,
           graph ++ flow_edge (name (routing self)) u d
                    :: (load_edge tname u d <$> constituents self))).
Proof.
  split.
  - unfold link_catchments, linkages.
    destruct (constituent_linkages self (constituents self)) as [rest|e] eqn:Hrest;
      cbn [bind]; [|done].
    intros (added & Hadded & Hall)%link_loop_edges.
    destruct (constituent_linkages_ports self _ rest Hrest) as [Hlen Hports].
    eexists _, added, rest. split_and!; [done|done| |done|done|done].
    apply Forall2_length in Hall. rewrite <- Hall, length_cons. by rewrite Hlen.
  - intros u d tname -> -> Hname Hr Ht Hcs.
    assert (Hplain : forall c, c ∈ constituents self -> plain c = true).
    { intros c Hc. rewrite forallb_forall in Hcs. by apply Hcs, list_elem_of_In. }
    unfold link_catchments, linkages.
    rewrite (constituent_linkages_returns self tname _ Hname Ht). cbn [bind].
    set (label := fun (l : string * string * string) (z : Z) =>
                    value_or "" (format l.1.1 [PyInt z])).
    rewrite (link_loop_returns _ label).
    + f_equal. f_equal. rewrite fmap_cons. f_equal.
      * unfold flow_edge, label. cbn [fst snd]. by rewrite !format_flow.
      * rewrite <- list_fmap_compose. apply Forall_fmap_ext_1, Forall_forall.
        intros c Hc. unfold load_edge, label, compose. cbn [fst snd].
        by rewrite !format_load by auto.
    + intros l z [->|(c & -> & Hc)%list_elem_of_fmap]%elem_of_cons;
        unfold label; cbn [fst snd].
      * by rewrite format_flow.
      * by rewrite format_load by auto.
Qed.

Lemma link_catchments_edges_witness :
  link_catchments scenario [] (PyInt 1) (PyInt 2)
  = (Return tt,
     [mkEdge "2-FlowRouting (Muskingum)" "1-FlowRouting (Muskingum)"
             ["outflow"] ["inflow"];
      mkEdge "2-ConstituentRouting-N (LumpedConstituentRouting)"
             "1-ConstituentRouting-N (LumpedConstituentRouting)"
             ["outflowLoad"] ["inflowLoad"]]).
Proof.
  destruct (link_catchments_edges scenario [] (PyInt 1) (PyInt 2)) as [_ Hcall].
  rewrite (Hcall 1%Z 2%Z "LumpedConstituentRouting"); reflexivity.
Defined.




(** * Further properties *)

(** ** The links of a template *)

Lemma template_of_links (self : SemiLumpedCatchment) :
  links (template_of self) = link_trace self.
Proof. reflexivity. Qed.

Section LinkMembership.

Variable self : SemiLumpedCatchment.

Lemma elem_of_con_links (hru con : string) (l : OWLink) :
  l ∈ con_links self hru con
  <-> l = mkLink (scale_node hru "Runoff") "outflow" (transport_node self con) "inflow"
      \/ exists cgu, (cgu, hru) ∈ cgu_hrus self /\ l ∈ cgu_links self hru con cgu.
Proof.
  unfold con_links. rewrite elem_of_app, list_elem_of_singleton, list_elem_of_bind.
  split.
  - intros [?|(cgu & ? & ?%elem_of_cgus_of)]; eauto.
  - intros [?|(cgu & ?%elem_of_cgus_of & ?)]; eauto.
Qed.

Lemma elem_of_hru_links (hru : string) (l : OWLink) :
  l ∈ hru_links self hru
  <-> l = mkLink (runoff_node self hru) "runoff" (scale_node hru "Runoff") "input"
      \/ l = mkLink (runoff_node self hru) "quickflow" (scale_node hru "Quickflow") "input"
      \/ l = mkLink (runoff_node self hru) "baseflow" (scale_node hru "Baseflow") "input"
      \/ l = mkLink (scale_node hru "Runoff") "outflow" (routing_node self) "lateral"
      \/ exists con, con ∈ constituents self /\ l ∈ con_links self hru con.
Proof.
  unfold hru_links. rewrite elem_of_app, list_elem_of_bind.
  rewrite !elem_of_cons, elem_of_nil. split.
  - intros [[?|[?|[?|[?|[]]]]]|(con & ? & ?)]; eauto 10.
  - intros [?|[?|[?|[?|(con & ? & ?)]]]]; eauto 10.
Qed.

Lemma elem_of_link_trace (l : OWLink) :
  l ∈ link_trace self
  <-> (exists con, con ∈ constituents self
                   /\ l = mkLink (routing_node self) "outflow"
                                 (transport_node self con) "outflow")
      \/ exists hru, hru ∈ hrus self /\ l ∈ hru_links self hru.
Proof.
  unfold link_trace. rewrite elem_of_app, !list_elem_of_bind. split.
  - intros [(con & ?%list_elem_of_singleton & ?)|(hru & ? & ?)]; eauto.
  - intros [(con & ? & ->)|(hru & ? & ?)]; [left|eauto].
    exists con. split; [by left|done].
Qed.

End LinkMembership.

Section NodesOfLinks.

Variable self : SemiLumpedCatchment.

Lemma routing_node_in : routing_node self ∈ nodes (template_of self).
Proof. apply elem_of_template_nodes, elem_of_node_trace. by left. Qed.

Lemma transport_node_in (con : string) :
  con ∈ constituents self -> transport_node self con ∈ nodes (template_of self).
Proof.
  intros Hcon. apply elem_of_template_nodes, elem_of_node_trace. right; left. eauto.
Qed.

Lemma hru_node_in (hru : string) (nd : OWNode) :
  hru ∈ hrus self -> nd ∈ hru_nodes self hru -> nd ∈ nodes (template_of self).
Proof.
  intros Hhru Hnd. apply elem_of_template_nodes, elem_of_node_trace. right; right. eauto.
Qed.

Lemma runoff_node_in (hru : string) :
  hru ∈ hrus self -> runoff_node self hru ∈ nodes (template_of self).
Proof. intros Hhru. apply (hru_node_in hru); [done|]. apply elem_of_hru_nodes. by left. Qed.

Lemma scale_node_in (hru comp : string) :
  hru ∈ hrus self -> comp ∈ ["Runoff"; "Quickflow"; "Baseflow"] ->
  scale_node hru comp ∈ nodes (template_of self).
Proof.
  intros Hhru Hcomp. apply (hru_node_in hru); [done|]. apply elem_of_hru_nodes.
  rewrite !elem_of_cons, elem_of_nil in Hcomp.
  destruct Hcomp as [->|[->|[->|[]]]]; auto.
Qed.

Lemma gen_node_in (hru con cgu : string) :
  hru ∈ hrus self -> con ∈ constituents self -> (cgu, hru) ∈ cgu_hrus self ->
  gen_node self con cgu ∈ nodes (template_of self).
Proof.
  intros Hhru Hcon Hcgu. apply (hru_node_in hru); [done|]. apply elem_of_hru_nodes.
  do 4 right. eauto.
Qed.

Lemma link_trace_endpoints (l : OWLink) :
  l ∈ link_trace self ->
  from_node l ∈ nodes (template_of self) /\ to_node l ∈ nodes (template_of self).
Proof.
  intros [(con & Hcon & ->)|(hru & Hhru & Hl)]%elem_of_link_trace.
  { split; [apply routing_node_in|by apply transport_node_in]. }
  assert (Hs : forall comp, comp ∈ ["Runoff"; "Quickflow"; "Baseflow"] ->
                            scale_node hru comp ∈ nodes (template_of self))
    by (intros; by apply scale_node_in).
  assert (HR : "Runoff" ∈ ["Runoff"; "Quickflow"; "Baseflow"]) by by left.
  assert (HQ : "Quickflow" ∈ ["Runoff"; "Quickflow"; "Baseflow"]) by (right; by left).
  assert (HB : "Baseflow" ∈ ["Runoff"; "Quickflow"; "Baseflow"])
    by (right; right; by left).
  apply elem_of_hru_links in Hl as [->|[->|[->|[->|(con & Hcon & Hl)]]]]; simpl.
  1-3: split; [by apply runoff_node_in|by apply Hs].
  { split; [by apply Hs|apply routing_node_in]. }
  apply elem_of_con_links in Hl as [->|(cgu & Hcgu & Hl)]; simpl.
  { split; [by apply Hs|by apply transport_node_in]. }
  unfold cgu_links in Hl. rewrite !elem_of_cons, elem_of_nil in Hl.
  destruct Hl as [->|[->|[->|[]]]]; simpl.
  - split; [by apply Hs|by apply (gen_node_in hru)].
  - split; [by apply Hs|by apply (gen_node_in hru)].
  - split; [by apply (gen_node_in hru)|by apply transport_node_in].
Qed.

Lemma length_con_links (hru con : string) :
  length (con_links self hru con) = 1 + 3 * length (cgus_of self hru).
Proof.
  unfold con_links. rewrite length_app, length_bind_sum.
  rewrite (sum_list_const _ 3) by done. simpl. lia.
Qed.

Lemma length_hru_links (hru : string) :
  length (hru_links self hru)
  = 4 + length (constituents self) * (1 + 3 * length (cgus_of self hru)).
Proof.
  unfold hru_links. rewrite length_app, length_bind_sum.
  rewrite (sum_list_const _ (1 + 3 * length (cgus_of self hru)))
    by (intros; apply length_con_links).
  done.
Qed.

Lemma length_link_trace :
  length (link_trace self)
  = length (constituents self)
    + length (hrus self) * (4 + length (constituents self))
    + 3 * length (constituents self)
      * sum_list ((fun hru => length (cgus_of self hru)) <$> hrus self).
Proof.
  unfold link_trace. rewrite length_app, !length_bind_sum.
  rewrite (sum_list_const _ 1) by done.
  rewrite (list_fmap_ext _
             (fun hru => (4 + length (constituents self))
                         + (3 * length (constituents self))
                           * length (cgus_of self hru))).
  - rewrite sum_list_affine. lia.
  - intros _ hru _. rewrite length_hru_links. lia.
Qed.

Lemma node_trace_forms (nd : OWNode) :
  nd ∈ node_trace self ->
  nd = routing_node self
  \/ (exists con, nd = transport_node self con)
  \/ (exists hru, nd = runoff_node self hru)
  \/ (exists hru comp, nd = scale_node hru comp)
  \/ (exists con cgu, nd = gen_node self con cgu).
Proof.
  intros [->|[(con & _ & ->)|(hru & _ & Hnd)]]%elem_of_node_trace; [eauto..|].
  apply elem_of_hru_nodes in Hnd as [->|[->|[->|[->|(con & cgu & _ & _ & ->)]]]];
    eauto 10.
Qed.

Lemma node_key_inj (nd1 nd2 : OWNode) :
  nd1 ∈ node_trace self -> nd2 ∈ node_trace self ->
  node_key nd1 = node_key nd2 -> nd1 = nd2.
Proof.
  intros H1%node_trace_forms H2%node_trace_forms Hkey.
  destruct H1 as [->|[(c1 & ->)|[(h1 & ->)|[(h1 & k1 & ->)|(c1 & g1 & ->)]]]];
    destruct H2 as [->|[(c2 & ->)|[(h2 & ->)|[(h2 & k2 & ->)|(c2 & g2 & ->)]]]];
    try discriminate Hkey; try done; by inv Hkey.
Qed.

End NodesOfLinks.

(** ** SemiLumpedCatchment.get_template: nodes, links and their ends *)

(** X1: the number of links of the template: one per constituent from the
    routing node, four per response unit, and for a response unit one per
    constituent into the transport node plus three per constituent and
    source unit mapped onto the response unit.  When no response unit is
    listed twice and every source unit is mapped onto a response unit of the
    catchment this is C + R*(4 + C) + 3*C*S. *)
Theorem get_template_link_count (self : SemiLumpedCatchment) :
  resolvable self = true ->
  exists t,
    get_template self = Return t
    /\ length (links t)
       = length (constituents self)
         + length (hrus self) * (4 + length (constituents self))
         + 3 * length (constituents self)
           * sum_list ((fun hru => length (cgus_of self hru)) <$> hrus self)
    /\ (NoDup (hrus self) -> all_mapped self ->
        length (links t)
        = length (constituents self)
          + length (hrus self) * (4 + length (constituents self))
          + 3 * length (constituents self) * length (cgu_hrus self)).
Proof.
  intros Hok. pose proof (get_template_char self) as Hchar. rewrite Hok in Hchar.
  exists (template_of self). split; [done|].
  rewrite template_of_links, length_link_trace. split; [done|].
  intros Hnd Hall. by rewrite all_mapped_count.
Qed.

Lemma get_template_link_count_witness :
  exists t, get_template mixed_catchment = Return t
            /\ length (links t) = 2 + 2 * (4 + 2) + 3 * 2 * 3.
Proof.
  destruct (get_template_link_count mixed_catchment) as (t & Ht & _ & Hlen).
  - vm_compute. reflexivity.
  - exists t. split; [done|]. apply Hlen.
    + apply (bool_decide_unpack (NoDup (hrus mixed_catchment))). vm_compute. exact I.
    + apply all_mapped_holds. vm_compute. reflexivity.
Defined.

(** X2: every link of the template joins two nodes of the same template:
    the node a link leaves and the node it enters have both been added. *)
Theorem get_template_links_closed (self : SemiLumpedCatchment) :
  resolvable self = true ->
  exists t,
    get_template self = Return t
    /\ forall l, l ∈ links t -> from_node l ∈ nodes t /\ to_node l ∈ nodes t.
Proof.
  intros Hok. pose proof (get_template_char self) as Hchar. rewrite Hok in Hchar.
  exists (template_of self). split; [done|].
  intros l Hl. rewrite template_of_links in Hl. by apply link_trace_endpoints.
Qed.

Lemma get_template_links_closed_witness :
  exists t, get_template mixed_catchment = Return t
            /\ forall l, l ∈ links t -> from_node l ∈ nodes t /\ to_node l ∈ nodes t.
Proof.
  apply (get_template_links_closed mixed_catchment). vm_compute. reflexivity.
Defined.

(** X3: in the template of a well-formed catchment no two nodes have the
    same process role and the same parameters: the role and the parameters
    identify a node, whatever the models are. *)
Theorem get_template_node_keys_unique (self : SemiLumpedCatchment) :
  well_formed self -> resolvable self = true ->
  exists t, get_template self = Return t /\ NoDup (node_key <$> nodes t).
Proof.
  intros Hwf Hok. pose proof (get_template_char self) as Hchar. rewrite Hok in Hchar.
  exists (template_of self). split; [done|].
  rewrite template_of_nodes by done.
  apply NoDup_fmap_2_strong; [|by apply node_trace_NoDup].
  intros nd1 nd2. apply node_key_inj.
Qed.

Lemma get_template_node_keys_unique_witness :
  exists t, get_template mixed_catchment = Return t /\ NoDup (node_key <$> nodes t).
Proof.
  apply (get_template_node_keys_unique mixed_catchment).
  - apply well_formed_holds. vm_compute. reflexivity.
  - vm_compute. reflexivity.
Defined.

(** X4: the nodes of the template are the routing node with the routing
    model; for every constituent a transport node with the model its
    provider resolves to; for every response unit a runoff node with the
    model its provider resolves to, and the three scaling nodes; and for
    every constituent and every source unit mapped onto a response unit of
    the catchment a generation node with the model its provider resolves
    to for the two of them; and no other node. *)
Theorem get_template_node_set (self : SemiLumpedCatchment) :
  resolvable self = true ->
  exists t,
    get_template self = Return t
    /\ forall nd,
         nd ∈ nodes t
         <-> nd = mkNode (routing self) "FlowRouting" []
             \/ (exists con m,
                   con ∈ constituents self
                   /\ model_for (transport self) [con] = Return m
                   /\ nd = mkNode m "ConstituentRouting" [("constituent", con)])
             \/ (exists hru m,
                   hru ∈ hrus self
                   /\ model_for (rr self) [hru] = Return m
                   /\ nd = mkNode m "RR" [("hru", hru)])
             \/ (exists hru comp,
                   hru ∈ hrus self
                   /\ comp ∈ ["Runoff"; "Quickflow"; "Baseflow"]
                   /\ nd = mkNode n.DepthToRate "ArealScale"
                                  [("hru", hru); ("component", comp)])
             \/ (exists con cgu hru m,
                   con ∈ constituents self /\ hru ∈ hrus self
                   /\ (cgu, hru) ∈ cgu_hrus self
                   /\ model_for (cg self) [con; cgu] = Return m
                   /\ nd = mkNode m "ConstituentGeneration"
                                  [("constituent", con); ("lu", cgu)]).
Proof.
  intros Hok. pose proof (get_template_char self) as Hchar. rewrite Hok in Hchar.
  exists (template_of self). split; [done|]. intros nd. split.
  - intros [->|[(con & Hcon & ->)|(hru & Hhru & Hnd)]]%elem_of_template_nodes%elem_of_node_trace.
    + by left.
    + right; left. exists con, (resolved (transport self) [con]).
      split_and!; [done|by apply resolvable_transport|done].
    + apply elem_of_hru_nodes in Hnd
        as [->|[->|[->|[->|(con & cgu & Hcon & Hcgu & ->)]]]].
      * right; right; left. exists hru, (resolved (rr self) [hru]).
        split_and!; [done|by apply resolvable_rr|done].
      * do 3 right; left. exists hru, "Runoff". split_and!; [done|by left|done].
      * do 3 right; left. exists hru, "Quickflow".
        split_and!; [done|right; by left|done].
      * do 3 right; left. exists hru, "Baseflow".
        split_and!; [done|right; right; by left|done].
      * do 4 right. exists con, cgu, hru, (resolved (cg self) [con; cgu]).
        split_and!; [done|done|done|by apply (resolvable_cg self Hok hru)|done].
  - intros [->|[(con & m & Hcon & Hm & ->)|[(hru & m & Hhru & Hm & ->)
             |[(hru & comp & Hhru & Hcomp & ->)
              |(con & cgu & hru & m & Hcon & Hhru & Hcgu & Hm & ->)]]]].
    + apply routing_node_in.
    + pose proof (transport_node_in self con Hcon) as Hin.
      unfold transport_node, resolved in Hin. by rewrite Hm in Hin.
    + pose proof (runoff_node_in self hru Hhru) as Hin.
      unfold runoff_node, resolved in Hin. by rewrite Hm in Hin.
    + by apply scale_node_in.
    + pose proof (gen_node_in self hru con cgu Hhru Hcon Hcgu) as Hin.
      unfold gen_node, resolved in Hin. by rewrite Hm in Hin.
Qed.

Lemma get_template_node_set_witness :
  exists t, get_template mixed_catchment = Return t
            /\ mkNode (Model "GR4J") "RR" [("hru", "Grazing")] ∈ nodes t.
Proof.
  destruct (get_template_node_set mixed_catchment) as (t & Ht & Hnodes).
  - vm_compute. reflexivity.
  - exists t. split; [done|]. apply Hnodes. right; right; left.
    exists "Grazing", (Model "GR4J"). split_and!; [|reflexivity|reflexivity].
    apply list_elem_of_In. right; left. reflexivity.
Defined.

(** ** SemiLumpedCatchment.get_template: the exception it raises *)

Lemma first_raised_app (rs1 rs2 : list (option exn)) :
  first_raised (rs1 ++ rs2)
  = match first_raised rs1 with
    | Some e => Some e
    | None => first_raised rs2
    end.
Proof. induction rs1 as [|[e|] rs1 IH]; [done|done|]. simpl. apply IH. Qed.

Lemma first_raised_bind {A} (f : A -> list (option exn)) (xs : list A) :
  first_raised (xs ≫= f) = first_raised ((fun x => first_raised (f x)) <$> xs).
Proof.
  induction xs as [|x xs IH]; [done|].
  rewrite bind_cons, first_raised_app, fmap_cons. simpl.
  destruct (first_raised (f x)); [done|apply IH].
Qed.

Lemma outcome_exn_eq {A} r r' (c : tmpl A) a ns ns' ls ls' :
  outcome_exn r' c a ns' ls' -> r = r' -> ns = ns' -> ls = ls' ->
  outcome_exn r c a ns ls.
Proof. by intros H -> -> ->. Qed.

Lemma outcome_exn_ret {A} (a : A) : outcome_exn None (ret a) a [] [].
Proof. intros t. unfold ret. by rewrite extend_nil. Qed.

Lemma outcome_exn_lift {A} (c : except A) (d : A) :
  outcome_exn (raised c) (lift c) (value_or d c) [] [].
Proof.
  destruct c as [a|e]; simpl; intros t; unfold lift; [|done].
  by rewrite extend_nil.
Qed.

Lemma outcome_exn_add_node m proc tgs :
  outcome_exn None (add_node m proc tgs) (mkNode m proc tgs) [mkNode m proc tgs] [].
Proof. intros t. unfold add_node, extend. simpl. by rewrite app_nil_r. Qed.

Lemma outcome_exn_add_link l : outcome_exn None (add_link l) tt [] [l].
Proof. intros t. done. Qed.

Lemma outcome_exn_bind {A B} r1 r2 (c : tmpl A) (k : A -> tmpl B) a b ns1 ls1 ns2 ls2 :
  outcome_exn r1 c a ns1 ls1 ->
  (r1 = None -> outcome_exn r2 (k a) b ns2 ls2) ->
  outcome_exn (first_raised [r1; r2]) (tbind c k) b (ns1 ++ ns2) (ls1 ++ ls2).
Proof.
  destruct r1 as [e|]; simpl; intros Hc Hk.
  - intros t. unfold tbind. by rewrite Hc.
  - specialize (Hk eq_refl). destruct r2 as [e|]; simpl in *; intros t; unfold tbind;
      rewrite Hc; [apply Hk|by rewrite Hk, extend_extend].
Qed.

Lemma outcome_exn_for_each {A} (xs : list A) (body : A -> tmpl unit) r fn fl :
  (forall x, x ∈ xs -> outcome_exn (r x) (body x) tt (fn x) (fl x)) ->
  outcome_exn (first_raised (r <$> xs)) (for_each xs body) tt (xs ≫= fn) (xs ≫= fl).
Proof.
  induction xs as [|x xs IH]; intros Hbody.
  - exact (outcome_exn_ret tt).
  - eapply outcome_exn_eq.
    + apply (outcome_exn_bind (r x) (first_raised (r <$> xs))) with (a := tt).
      * apply Hbody. by left.
      * intros _. apply IH. intros y Hy. apply Hbody. by right.
    + rewrite fmap_cons. simpl. by destruct (r x), (first_raised (r <$> xs)).
    + done.
    + done.
Qed.

Lemma outcome_exn_for_acc {A S} (xs : list A) (body : A -> S -> tmpl S) r step fn fl :
  (forall x acc, x ∈ xs -> outcome_exn (r x) (body x acc) (step acc x) (fn x) (fl x)) ->
  forall acc,
  outcome_exn (first_raised (r <$> xs)) (for_acc xs acc body) (foldl step acc xs)
              (xs ≫= fn) (xs ≫= fl).
Proof.
  induction xs as [|x xs IH]; intros Hbody acc.
  - exact (outcome_exn_ret acc).
  - eapply outcome_exn_eq.
    + apply (outcome_exn_bind (r x) (first_raised (r <$> xs))) with (a := step acc x).
      * apply Hbody. by left.
      * intros _. apply IH. intros y acc' Hy. apply Hbody. by right.
    + rewrite fmap_cons. simpl. by destruct (r x), (first_raised (r <$> xs)).
    + done.
    + done.
Qed.

(** One step of symbolic execution of template code, with its exception. *)
Ltac run_exn :=
  repeat first
    [ apply outcome_exn_ret
    | apply outcome_exn_add_link
    | apply outcome_exn_add_node
    | apply (outcome_exn_lift _ (Model ""))
    | eapply outcome_exn_bind; [ | intros _; cbv beta ] ].

Lemma first_raised_singleton (r : option exn) : first_raised [r] = r.
Proof. by destruct r. Qed.

Lemma first_raised_skip (r : option exn) : first_raised [None; r] = r.
Proof. by destruct r. Qed.

Lemma first_raised_None (r : option exn) (rs : list (option exn)) :
  r = None -> first_raised (r :: rs) = first_raised rs.
Proof. by intros ->. Qed.

Lemma first_raised_bind_singleton {A} (g : A -> option exn) (xs : list A) :
  first_raised (xs ≫= (fun x => [g x])) = first_raised (g <$> xs).
Proof.
  rewrite first_raised_bind. f_equal. apply list_fmap_ext.
  intros _ x _. apply first_raised_singleton.
Qed.

Lemma cgu_loop_outcome_exn (self : SemiLumpedCatchment) (hru con : string) :
  outcome_exn
    (first_raised
       (cgus_of self hru ≫= (fun cgu => [raised (model_for (cg self) [con; cgu])])))
    (for_each (cgus_of self hru)
       (fun cgu =>
          let! m := lift (model_for (cg self) [con; cgu]) in
          let! gen_node :=
            add_node m "ConstituentGeneration" [("constituent", con); ("lu", cgu)] in
          add_link (mkLink (scale_node hru "Quickflow") "outflow" gen_node "quickflow") ;;!
          add_link (mkLink (scale_node hru "Baseflow") "outflow" gen_node "baseflow") ;;!
          add_link (mkLink gen_node "totalLoad" (transport_node self con) "lateralLoad")))
    tt (con_nodes self hru con) (cgus_of self hru ≫= cgu_links self hru con).
Proof.
  eapply outcome_exn_eq.
  - apply outcome_exn_for_each
      with (r := fun cgu => raised (model_for (cg self) [con; cgu])).
    intros cgu _. eapply outcome_exn_eq; [run_exn | ..]; [|done..].
    by destruct (raised (model_for (cg self) [con; cgu])).
  - apply first_raised_bind_singleton.
  - done.
  - done.
Qed.

(** X5: [get_template] raises the exception of the first provider lookup
    that raises, in the order the lookups are made (the transport of every
    constituent; then, for every response unit, its runoff model and, for
    every constituent, the generation model of every source unit mapped onto
    the unit), and it returns the template in closed form when no lookup
    raises.  It raises nothing of its own. *)
Theorem get_template_first_exception (self : SemiLumpedCatchment) :
  get_template self
  = match first_raised (lookup_errors self) with
    | Some e => Raise e
    | None => Return (template_of self)
    end.
Proof.
  unfold get_template.
  match goal with
  | |- context [build ?c _] =>
      assert (H : outcome_exn (first_raised (lookup_errors self)) c tt
                              (node_trace self) (link_trace self))
  end.
  { eapply outcome_exn_eq.
    - eapply outcome_exn_bind; [apply outcome_exn_add_node | intros _; cbv beta].
      eapply outcome_exn_bind.
      + apply outcome_exn_for_acc
          with (r := fun con => raised (model_for (transport self) [con]))
               (step := fun acc con => <[con := transport_node self con]> acc)
               (fn := fun con => [transport_node self con])
               (fl := fun con =>
                        [mkLink (routing_node self) "outflow" (transport_node self con) "outflow"]).
        intros con acc _. eapply outcome_exn_eq; [run_exn | ..]; [|done..].
        by destruct (raised (model_for (transport self) [con])).
      + intros _. cbv beta.
        apply outcome_exn_for_each
          with (r := fun hru =>
                       first_raised
                         (raised (model_for (rr self) [hru])
                          :: (constituents self ≫=
                                (fun con =>
                                   cgus_of self hru ≫=
                                     (fun cgu => [raised (model_for (cg self) [con; cgu])])))))
               (fn := hru_nodes self) (fl := hru_links self).
        intros hru _. eapply outcome_exn_eq; [run_exn | ..].
        * apply outcome_exn_for_each
            with (r := fun con =>
                         first_raised
                           (cgus_of self hru ≫=
                              (fun cgu => [raised (model_for (cg self) [con; cgu])])))
                 (fn := con_nodes self hru) (fl := con_links self hru).
          intros con Hcon. rewrite (lookup_node_transport self con Hcon).
          eapply outcome_exn_eq.
          -- eapply outcome_exn_bind;
               [apply (outcome_exn_lift _ (transport_node self con))|].
             intros _. cbv beta. eapply outcome_exn_bind; [apply outcome_exn_add_link|].
             intros _. apply cgu_loop_outcome_exn.
          -- cbn [raised first_raised].
             by destruct (first_raised (cgus_of self hru ≫= _)).
          -- done.
          -- done.
        * destruct (raised (model_for (rr self) [hru])); [done|].
          rewrite !first_raised_skip, first_raised_None by done.
          apply first_raised_bind.
        * done.
        * done.
    - unfold lookup_errors. rewrite first_raised_app, first_raised_bind_singleton.
      rewrite first_raised_bind, first_raised_skip.
      by destruct (first_raised (_ <$> constituents self)), (first_raised (_ <$> hrus self)).
    - done.
    - done. }
  unfold build. destruct (first_raised (lookup_errors self)); simpl in H; by rewrite H.
Qed.

(** ** SemiLumpedCatchment.link_catchments: what is left in the graph *)





(** X7: [link_catchments] reads [self.transport.name] once for every
    constituent.  On a catchment whose transport provider has no such
    attribute (a dict of models, which [get_template] accepts) the call
    raises the [AttributeError] before any edge is added, whatever the
    catchment identifiers are, as soon as there is a constituent; without
    constituents the provider is not read and the flow edge is added. *)
Theorem link_catchments_unnamed_transport (self : SemiLumpedCatchment)
        (graph : digraph) (upstream downstream : operand) (e : exn) :
  provider_name (transport self) = Raise e ->
  (constituents self <> [] ->
   link_catchments self graph upstream downstream = (Raise e, graph))
  /\ (constituents self = [] ->
      forall u d, upstream = PyInt u -> downstream = PyInt d ->
                  plain (name (routing self)) = true ->
                  link_catchments self graph upstream downstream
                  = (Return tt, graph ++ [flow_edge (name (routing self)) u d])).
Proof.
  intros Hname. unfold link_catchments, linkages. split.
  - destruct (constituents self) as [|c cs]; [done|]. intros _.
    cbn [constituent_linkages]. by rewrite Hname.
  - intros -> u d -> -> Hr. cbn [constituent_linkages bind link_loop].
    by rewrite !percent_single, !format_flow.
Qed.

Lemma link_catchments_unnamed_transport_witness :
  returns (get_template transport_by_constituent) = true
  /\ link_catchments transport_by_constituent [] (PyInt 1) (PyInt 2)
     = (Raise (AttributeError "name"), []).
Proof.
  split; [reflexivity|].
  destruct (link_catchments_unnamed_transport transport_by_constituent []
              (PyInt 1) (PyInt 2) (AttributeError "name")) as [H _];
    [reflexivity|]. apply H. discriminate.
Defined.

(** ** SemiLumpedCatchment.get_template: a generation provider that is indexed *)

(** X8: [model_for] indexes a provider by its first key only, and
    [get_template] asks for a generation model with the constituent first
    and the source unit second.  So with a generation provider that can be
    indexed and cannot be called (a dict), the model of a generation node is
    the entry of its constituent: the source unit plays no part, and all the
    generation nodes of a constituent have the same model. *)
Theorem get_template_generation_by_constituent (self : SemiLumpedCatchment)
        (getitem : string -> except model) :
  cg self = Subscriptable getitem -> resolvable self = true ->
  exists t,
    get_template self = Return t
    /\ (forall nd con cgu,
          nd ∈ nodes t -> process nd = "ConstituentGeneration" ->
          tags nd = [("constituent", con); ("lu", cgu)] ->
          getitem con = Return (model_type nd))
    /\ (forall nd1 nd2 con,
          nd1 ∈ nodes t -> nd2 ∈ nodes t ->
          process nd1 = "ConstituentGeneration" ->
          process nd2 = "ConstituentGeneration" ->
          ("constituent", con) ∈ tags nd1 -> ("constituent", con) ∈ tags nd2 ->
          model_type nd1 = model_type nd2).
Proof.
  intros Hcg Hok. pose proof (get_template_char self) as Hchar. rewrite Hok in Hchar.
  exists (template_of self). split; [done|].
  assert (Hgen : forall nd,
             nd ∈ nodes (template_of self) -> process nd = "ConstituentGeneration" ->
             exists con cgu hru,
               con ∈ constituents self /\ hru ∈ hrus self
               /\ (cgu, hru) ∈ cgu_hrus self /\ nd = gen_node self con cgu).
  { intros nd [->|[(con & _ & ->)|(hru & Hhru & Hnd)]]%elem_of_template_nodes%elem_of_node_trace
           Hproc; try discriminate.
    apply elem_of_hru_nodes in Hnd
      as [->|[->|[->|[->|(con & cgu & ? & ? & ->)]]]]; try discriminate.
    by exists con, cgu, hru. }
  assert (Hmodel : forall con cgu hru,
             con ∈ constituents self -> hru ∈ hrus self -> (cgu, hru) ∈ cgu_hrus self ->
             getitem con = Return (model_type (gen_node self con cgu))).
  { intros con cgu hru Hcon Hhru Hcgu.
    pose proof (resolvable_cg self Hok hru con cgu Hhru Hcon Hcgu) as Hm.
    unfold gen_node. cbn [model_type]. rewrite Hcg in Hm |- *.
    cbn [model_for first_arg bind] in Hm. by rewrite Hm. }
  split.
  - intros nd con cgu Hnd Hproc Htags.
    destruct (Hgen nd Hnd Hproc) as (con' & cgu' & hru & Hcon & Hhru & Hcgu & ->).
    injection Htags as -> ->. by apply (Hmodel con cgu hru).
  - intros nd1 nd2 con Hnd1 Hnd2 Hp1 Hp2 Ht1 Ht2.
    destruct (Hgen nd1 Hnd1 Hp1) as (c1 & g1 & h1 & Hc1 & Hh1 & Hg1 & ->).
    destruct (Hgen nd2 Hnd2 Hp2) as (c2 & g2 & h2 & Hc2 & Hh2 & Hg2 & ->).
    simpl in Ht1, Ht2. rewrite !elem_of_cons, elem_of_nil in Ht1, Ht2.
    destruct Ht1 as [[= <-]|[?|[]]]; [|discriminate].
    destruct Ht2 as [[= <-]|[?|[]]]; [|discriminate].
    pose proof (Hmodel con g1 h1 Hc1 Hh1 Hg1) as H1.
    pose proof (Hmodel con g2 h2 Hc2 Hh2 Hg2) as H2. congruence.
Qed.

Lemma get_template_generation_by_constituent_witness :
  exists t,
    get_template generation_by_dict = Return t
    /\ mkNode (Model "Sednet") "ConstituentGeneration" [("constituent", "P"); ("lu", "S2")]
       ∈ nodes t.
Proof.
  destruct (get_template_generation_by_constituent generation_by_dict
              (dict_getitem [("N", n.EmcDwc); ("P", Model "Sednet")]))
    as (t & Ht & _ & _); [reflexivity|vm_compute; reflexivity|].
  exists t. split; [done|]. vm_compute in Ht. injection Ht as <-.
  apply list_elem_of_In. vm_compute. tauto.
Defined.

(** ** SemiLumpedCatchment.link_catchments: the labels of two catchments *)

Lemma length_append_string (s t : string) :
  String.length (s +:+ t) = String.length s + String.length t.
Proof.
  induction s as [|c s IH]; [done|]. rewrite append_cons. simpl. by rewrite IH.
Qed.

Lemma append_inv_r (s1 s2 t : string) : s1 +:+ t = s2 +:+ t -> s1 = s2.
Proof.
  revert s2. induction s1 as [|c1 s1 IH]; intros [|c2 s2] Heq.
  - done.
  - apply (f_equal String.length) in Heq.
    rewrite !length_append_string in Heq. simpl in Heq. lia.
  - apply (f_equal String.length) in Heq.
    rewrite !length_append_string in Heq. simpl in Heq. lia.
  - rewrite !append_cons in Heq. injection Heq as -> Heq. f_equal. by apply IH.
Qed.

Lemma flow_label_inj (rname : string) (z1 z2 : Z) :
  flow_label rname z1 = flow_label rname z2 -> z1 = z2.
Proof. unfold flow_label. intros Heq%append_inv_r. by apply (inj pretty). Qed.

Lemma load_label_inj (tname c : string) (z1 z2 : Z) :
  load_label tname c z1 = load_label tname c z2 -> z1 = z2.
Proof. unfold load_label. intros Heq%append_inv_r. by apply (inj pretty). Qed.

(** The edges of a call that returns, written out: the labels carry the
    integers that [%d] prints for the two identifiers. *)
Lemma link_catchments_labels (self : SemiLumpedCatchment) (graph : digraph)
      (upstream downstream : operand) (u d : Z) (tname : string) :
  int_value upstream = Some u -> int_value downstream = Some d ->
  provider_name (transport self) = Return tname ->
  plain (name (routing self)) = true -> plain tname = true ->
  forallb plain (constituents self) = true ->
  link_catchments self graph upstream downstream
  = (Return tt,
     graph ++ flow_edge (name (routing self)) u d
              :: (load_edge tname u d <$> constituents self)).
Proof.
  intros Hu Hd Hname Hr Ht Hcs.
  assert (Hplain : forall c, c ∈ constituents self -> plain c = true).
  { intros c Hc. rewrite forallb_forall in Hcs. by apply Hcs, list_elem_of_In. }
  unfold link_catchments, linkages.
  rewrite (constituent_linkages_returns self tname _ Hname Ht). cbn [bind].
  set (label := fun (l : string * string * string) (z : Z) =>
                  value_or "" (format l.1.1 [PyInt z])).
  rewrite (link_loop_labels _ label _ _ u d).
  - f_equal. f_equal. rewrite fmap_cons. f_equal.
    + unfold flow_edge, label. cbn [fst snd]. by rewrite !format_flow.
    + rewrite <- list_fmap_compose. apply Forall_fmap_ext_1, Forall_forall.
      intros c Hc. unfold load_edge, label, compose. cbn [fst snd].
      by rewrite !format_load by auto.
  - intros l [->|(c & -> & Hc)%list_elem_of_fmap]%elem_of_cons;
      unfold label; cbn [fst snd].
    + by rewrite !format_flow, (percent_flow _ _ u), (percent_flow _ _ d).
    + by rewrite !format_load, (percent_load _ _ _ u), (percent_load _ _ _ d) by auto.
Qed.

Lemma link_catchments_returns (self : SemiLumpedCatchment) (graph : digraph)
      (u d : Z) (tname : string) :
  provider_name (transport self) = Return tname ->
  plain (name (routing self)) = true -> plain tname = true ->
  forallb plain (constituents self) = true ->
  link_catchments self graph (PyInt u) (PyInt d)
  = (Return tt,
     graph ++ flow_edge (name (routing self)) u d
              :: (load_edge tname u d <$> constituents self)).
Proof. by apply link_catchments_labels. Qed.

(** X9: [link_catchments] knows a catchment by the integer that [%d]
    prints for its identifier.  For two identifiers that are numbers or
    tuples of one number, a call adds no loop when their integers differ:
    the source label and the destination label of every edge differ.  When
    their integers are equal every edge is a loop, also for two different
    identifiers: 1 and 1.9, 1 and [True], 1 and [(1,)]. *)
Theorem link_catchments_no_loop (self : SemiLumpedCatchment) (graph : digraph)
        (upstream downstream : operand) (u d : Z) (tname : string) :
  int_value upstream = Some u -> int_value downstream = Some d ->
  provider_name (transport self) = Return tname ->
  plain (name (routing self)) = true -> plain tname = true ->
  forallb plain (constituents self) = true ->
  exists added,
    link_catchments self graph upstream downstream = (Return tt, graph ++ added)
    /\ length added = 1 + length (constituents self)
    /\ (u <> d -> Forall (fun e => edge_src e <> edge_dest e) added)
    /\ (u = d -> Forall (fun e => edge_src e = edge_dest e) added).
Proof.
  intros Hu Hd Hname Hr Ht Hcs. eexists.
  split; [by apply (link_catchments_labels _ _ _ _ u d tname)|].
  split; [by rewrite length_cons, length_fmap|]. split.
  - intros Hne. constructor.
    + simpl. intros Heq%flow_label_inj. done.
    + apply Forall_fmap, Forall_forall. intros c _. simpl.
      intros Heq%load_label_inj. done.
  - intros ->. constructor; [done|]. by apply Forall_fmap, Forall_forall.
Qed.

(** The identifiers 1 and 1.9 are one catchment for the graph. *)
Lemma link_catchments_no_loop_witness :
  exists added,
    link_catchments scenario [] (PyInt 1) (PyOther "1.9" (Some (Return 1%Z)))
    = (Return tt, added)
    /\ length added = 2
    /\ Forall (fun e => edge_src e = edge_dest e) added.
Proof.
  destruct (link_catchments_no_loop scenario [] (PyInt 1)
              (PyOther "1.9" (Some (Return 1%Z))) 1 1 "LumpedConstituentRouting")
    as (added & Hcall & Hlen & _ & Heq); [reflexivity..|].
  exists added. split; [exact Hcall|]. split; [exact Hlen|]. apply Heq. reflexivity.
Defined.

(** X10: linking a chain.  After [link_catchments] for an upstream catchment
    [u] and a catchment [d], and again for [d] and a catchment [w] below
    it, the graph holds the edges of the first call followed by those of the
    second, and the two calls name the vertices of [d] alike: linkage by
    linkage, the source of the edge of the first call is the destination of
    the edge of the second. *)
Theorem link_catchments_chain (self : SemiLumpedCatchment) (graph : digraph)
        (u d w : Z) (tname : string) :
  provider_name (transport self) = Return tname ->
  plain (name (routing self)) = true -> plain tname = true ->
  forallb plain (constituents self) = true ->
  exists first second,
    link_catchments self graph (PyInt u) (PyInt d) = (Return tt, graph ++ first)
    /\ link_catchments self (graph ++ first) (PyInt d) (PyInt w)
       = (Return tt, graph ++ first ++ second)
    /\ Forall2 (fun e1 e2 => edge_src e1 = edge_dest e2
                             /\ attr_src e1 = attr_src e2
                             /\ attr_dest e1 = attr_dest e2) first second.
Proof.
  intros Hname Hr Ht Hcs.
  exists (flow_edge (name (routing self)) u d
          :: (load_edge tname u d <$> constituents self)),
         (flow_edge (name (routing self)) d w
          :: (load_edge tname d w <$> constituents self)).
  split_and!.
  - by apply link_catchments_returns.
  - rewrite (link_catchments_returns self _ d w tname) by done.
    by rewrite <- app_assoc.
  - constructor; [done|]. apply Forall2_fmap, Forall_Forall2_diag, Forall_forall.
    by intros c _.
Qed.

Lemma link_catchments_chain_witness :
  exists g,
    link_catchments scenario (snd (link_catchments scenario [] (PyInt 1) (PyInt 2)))
                    (PyInt 2) (PyInt 3) = (Return tt, g)
    /\ length g = 4.
Proof.
  destruct (link_catchments_chain scenario [] 1 2 3 "LumpedConstituentRouting")
    as (first & second & H1 & H2 & Hall); [reflexivity..|].
  rewrite H1. cbn [snd]. rewrite H2. eexists. split; [reflexivity|].
  apply Forall2_length in Hall. vm_compute in H1. injection H1 as <-.
  cbn [app length] in *. lia.
Defined.

(** ** SemiLumpedCatchment.get_template: empty lists *)

(** X11: a catchment without constituents.  [get_template] consults neither
    the transport provider nor the generation provider, so it returns as
    soon as the runoff provider resolves for every response unit, whatever
    the other two providers and the mapping are.  The template has the
    routing node and the runoff node and the three scaling nodes of every
    response unit, four links per response unit, and no transport or
    generation node. *)
Theorem get_template_no_constituents (self : SemiLumpedCatchment) :
  constituents self = [] ->
  forallb (fun hru => returns (model_for (rr self) [hru])) (hrus self) = true ->
  exists t,
    get_template self = Return t
    /\ length (links t) = 4 * length (hrus self)
    /\ (forall nd, nd ∈ nodes t -> process nd ∈ ["FlowRouting"; "RR"; "ArealScale"])
    /\ (NoDup (hrus self) -> length (nodes t) = 1 + 4 * length (hrus self)).
Proof.
  intros Hcs Hrr.
  assert (Hok : resolvable self = true).
  { unfold resolvable. rewrite Hcs. cbn [forallb andb].
    rewrite <- Hrr. apply forallb_ext_elem. intros hru _.
    unfold ok_hru. rewrite Hcs. cbn [forallb]. apply andb_true_r. }
  pose proof (get_template_char self) as Hchar. rewrite Hok in Hchar.
  exists (template_of self). split; [done|]. split_and!.
  - rewrite template_of_links, length_link_trace, Hcs. cbn [length]. lia.
  - intros nd [->|[(con & Hcon & _)|(hru & _ & Hnd)]]%elem_of_template_nodes%elem_of_node_trace.
    + by left.
    + rewrite Hcs in Hcon. by apply elem_of_nil in Hcon.
    + apply elem_of_hru_nodes in Hnd
        as [->|[->|[->|[->|(con & cgu & Hcon & _)]]]].
      * right; by left.
      * right; right; by left.
      * right; right; by left.
      * right; right; by left.
      * rewrite Hcs in Hcon. by apply elem_of_nil in Hcon.
  - intros Hnd.
    assert (Hfresh : NoDup (node_trace self)).
    { unfold node_trace. rewrite Hcs. cbn [mbind]. simpl.
      apply NoDup_cons. split.
      - intros (hru & Hin & _)%list_elem_of_bind.
        apply elem_of_hru_nodes in Hin
          as [?|[?|[?|[?|(con & cgu & Hcon & _)]]]]; try discriminate.
        rewrite Hcs in Hcon. by apply elem_of_nil in Hcon.
      - apply NoDup_bind; [|intros hru _|done].
        + intros h1 h2 nd _ _ H1%elem_of_hru_nodes H2%elem_of_hru_nodes.
          destruct H1 as [->|[->|[->|[->|(c1 & g1 & Hc1 & _)]]]];
            destruct H2 as [Heq|[Heq|[Heq|[Heq|(c2 & g2 & Hc2 & _)]]]];
            try discriminate; try (by inv Heq).
          all: rewrite Hcs in *; by (apply elem_of_nil in Hc1 || apply elem_of_nil in Hc2).
        + unfold hru_nodes. rewrite Hcs. cbn [mbind]. simpl.
          repeat (apply NoDup_cons; split; [distinct_nodes|]). apply NoDup_nil_2. }
    change (nodes (template_of self)) with (insert_nodes (node_trace self) []).
    rewrite insert_nodes_fresh by done.
    rewrite app_nil_l, length_node_trace, Hcs. cbn [length]. lia.
Qed.

Lemma get_template_no_constituents_witness :
  exists t, get_template no_constituents = Return t
            /\ length (nodes t) = 9 /\ length (links t) = 8.
Proof.
  destruct (get_template_no_constituents no_constituents)
    as (t & Ht & Hlinks & _ & Hnodes); [reflexivity..|].
  exists t. split_and!; [done| |done].
  apply Hnodes. apply (bool_decide_unpack (NoDup (hrus no_constituents))).
  vm_compute. exact I.
Defined.

(** X12: a catchment without response units.  [get_template] consults the
    transport provider alone: it returns as soon as that provider resolves
    for every constituent, whatever the runoff provider, the generation
    provider and the mapping are.  The template has the routing node and
    the transport nodes, one link per constituent from the [outflow] of the
    routing node to the [outflow] of the transport node, and nothing else.
    Without constituents either, it is the routing node alone. *)
Theorem get_template_no_hrus (self : SemiLumpedCatchment) :
  hrus self = [] ->
  forallb (fun con => returns (model_for (transport self) [con])) (constituents self)
  = true ->
  exists t,
    get_template self = Return t
    /\ length (links t) = length (constituents self)
    /\ (forall l, l ∈ links t ->
          from_node l = mkNode (routing self) "FlowRouting" []
          /\ from_output l = "outflow" /\ to_input l = "outflow"
          /\ process (to_node l) = "ConstituentRouting")
    /\ (forall nd, nd ∈ nodes t -> process nd ∈ ["FlowRouting"; "ConstituentRouting"])
    /\ (constituents self = [] ->
        t = mkTemplate [mkNode (routing self) "FlowRouting" []] []).
Proof.
  intros Hhs Htr.
  assert (Hok : resolvable self = true).
  { unfold resolvable. rewrite Hhs. cbn [forallb]. by rewrite andb_true_r. }
  pose proof (get_template_char self) as Hchar. rewrite Hok in Hchar.
  exists (template_of self). split; [done|]. split_and!.
  - rewrite template_of_links, length_link_trace, Hhs. cbn [length fmap list_fmap sum_list].
    simpl. lia.
  - intros l [(con & _ & ->)|(hru & Hhru & _)]%elem_of_link_trace; [done|].
    rewrite Hhs in Hhru. by apply elem_of_nil in Hhru.
  - intros nd [->|[(con & _ & ->)|(hru & Hhru & _)]]%elem_of_template_nodes%elem_of_node_trace.
    + by left.
    + right; by left.
    + rewrite Hhs in Hhru. by apply elem_of_nil in Hhru.
  - intros Hcs. unfold template_of, extend, node_trace, link_trace.
    rewrite Hhs, Hcs. reflexivity.
Qed.

Lemma get_template_no_hrus_witness :
  exists t, get_template no_hrus = Return t
            /\ length (links t) = 2
            /\ forall nd, nd ∈ nodes t -> process nd ∈ ["FlowRouting"; "ConstituentRouting"].
Proof.
  destruct (get_template_no_hrus no_hrus)
    as (t & Ht & Hlinks & _ & Hnodes & _); [reflexivity..|].
  by exists t.
Defined.

(** ** SemiLumpedCatchment.get_template: the links of a generation node *)

Section GenerationLinks.

Variable self : SemiLumpedCatchment.
Hypothesis Hwf : well_formed self.
Variables hru con cgu : string.
Hypothesis Hhru : hru ∈ hrus self.
Hypothesis Hcon : con ∈ constituents self.
Hypothesis Hcgu : (cgu, hru) ∈ cgu_hrus self.

(** Among the links made for every response unit, constituent and source
    unit, the ones of [hru], [con] and [cgu]. *)
Lemma gen_select {B} (F : string -> string -> string -> list B) :
  hrus self ≫=
    (fun h => constituents self ≫=
       (fun c => cgus_of self h ≫=
          (fun g => if decide (c = con /\ g = cgu) then F h c g else [])))
  = F hru con cgu.
Proof.
  destruct Hwf as (Hhrus & Hcs & Hkeys).
  rewrite <- (bind_select (fun h => F h con cgu) hru (hrus self)) by done.
  apply bind_ext_elem. intros h Hh.
  rewrite (bind_ext_elem _
             (fun c => if decide (c = con)
                       then cgus_of self h ≫=
                              (fun g => if decide (g = cgu) then F h c g else [])
                       else [])).
  2:{ intros c _. destruct (decide (c = con)) as [->|Hne].
      - apply bind_ext_elem. intros g _.
        destruct (decide (g = cgu)) as [->|Hg].
        + by rewrite decide_True.
        + rewrite decide_False; [done|]. by intros [_ ?].
      - rewrite (bind_ext_elem _ (fun _ => [])), bind_nothing; [done|].
        intros g _. rewrite decide_False; [done|]. by intros [? _]. }
  rewrite (bind_select
             (fun c => cgus_of self h ≫=
                         (fun g => if decide (g = cgu) then F h c g else []))
             con (constituents self)) by done.
  destruct (decide (h = hru)) as [->|Hne].
  - apply (bind_select (fun g => F hru con g) cgu (cgus_of self hru)).
    + by apply cgus_of_NoDup.
    + by apply elem_of_cgus_of.
  - rewrite (bind_ext_elem _ (fun _ => [])), bind_nothing; [done|].
    intros g Hg%elem_of_cgus_of. rewrite decide_False; [done|].
    intros ->. apply Hne. by eapply dict_key_unique.
Qed.

Lemma gen_node_inj (c g : string) :
  gen_node self c g = gen_node self con cgu <-> c = con /\ g = cgu.
Proof.
  split; [by intros [= _ -> ->]|by intros [-> ->]].
Qed.

Lemma incoming_gen_quickflow :
  incoming (template_of self) (gen_node self con cgu) "quickflow"
  = [mkLink (scale_node hru "Quickflow") "outflow" (gen_node self con cgu) "quickflow"].
Proof.
  unfold incoming. rewrite template_of_links. unfold link_trace.
  rewrite filter_app, !filter_bind.
  rewrite (bind_ext_elem _ (fun _ => [])), bind_nothing
    by (intros c _; by filter_links).
  rewrite app_nil_l.
  rewrite <- (gen_select
                (fun h c g => [mkLink (scale_node h "Quickflow") "outflow"
                                      (gen_node self c g) "quickflow"])).
  apply bind_ext_elem. intros h _. unfold hru_links.
  rewrite filter_app, filter_bind. filter_links. rewrite app_nil_l.
  apply bind_ext_elem. intros c _. unfold con_links.
  rewrite filter_app, filter_bind. filter_links. rewrite app_nil_l.
  apply bind_ext_elem. intros g _. unfold cgu_links.
  rewrite filter_cons. filter_links.
  apply decide_ext. cbn [to_node to_input]. rewrite gen_node_inj. tauto.
Qed.

Lemma incoming_gen_baseflow :
  incoming (template_of self) (gen_node self con cgu) "baseflow"
  = [mkLink (scale_node hru "Baseflow") "outflow" (gen_node self con cgu) "baseflow"].
Proof.
  unfold incoming. rewrite template_of_links. unfold link_trace.
  rewrite filter_app, !filter_bind.
  rewrite (bind_ext_elem _ (fun _ => [])), bind_nothing
    by (intros c _; by filter_links).
  rewrite app_nil_l.
  rewrite <- (gen_select
                (fun h c g => [mkLink (scale_node h "Baseflow") "outflow"
                                      (gen_node self c g) "baseflow"])).
  apply bind_ext_elem. intros h _. unfold hru_links.
  rewrite filter_app, filter_bind. filter_links. rewrite app_nil_l.
  apply bind_ext_elem. intros c _. unfold con_links.
  rewrite filter_app, filter_bind. filter_links. rewrite app_nil_l.
  apply bind_ext_elem. intros g _. unfold cgu_links.
  rewrite filter_cons_False by (simpl; intros [_ ?]; discriminate).
  rewrite filter_cons. filter_links.
  apply decide_ext. cbn [to_node to_input]. rewrite gen_node_inj. tauto.
Qed.

Lemma outgoing_gen_totalLoad :
  outgoing (template_of self) (gen_node self con cgu) "totalLoad"
  = [mkLink (gen_node self con cgu) "totalLoad" (transport_node self con) "lateralLoad"].
Proof.
  unfold outgoing. rewrite template_of_links. unfold link_trace.
  rewrite filter_app, !filter_bind.
  rewrite (bind_ext_elem _ (fun _ => [])), bind_nothing
    by (intros c _; by filter_links).
  rewrite app_nil_l.
  rewrite <- (gen_select
                (fun h c g => [mkLink (gen_node self c g) "totalLoad"
                                      (transport_node self c) "lateralLoad"])).
  apply bind_ext_elem. intros h _. unfold hru_links.
  rewrite filter_app, filter_bind. filter_links. rewrite app_nil_l.
  apply bind_ext_elem. intros c _. unfold con_links.
  rewrite filter_app, filter_bind. filter_links. rewrite app_nil_l.
  apply bind_ext_elem. intros g _. unfold cgu_links.
  rewrite !filter_cons_False by (simpl; intros [_ ?]; discriminate).
  rewrite filter_cons, filter_nil.
  apply decide_ext. cbn [from_node from_output]. rewrite gen_node_inj. tauto.
Qed.

End GenerationLinks.

(** X13: the wiring of a generation node.  In the template of a well-formed
    catchment, the generation node of a constituent and of a source unit
    mapped onto a response unit of the catchment receives exactly one link
    into [quickflow] and one into [baseflow], from the quickflow and the
    baseflow scaling nodes of that response unit and of no other, and sends
    exactly one link from [totalLoad], to the [lateralLoad] of the transport
    node of its constituent. *)
Theorem get_template_generation_links (self : SemiLumpedCatchment)
        (hru con cgu : string) :
  well_formed self -> resolvable self = true ->
  hru ∈ hrus self -> con ∈ constituents self -> (cgu, hru) ∈ cgu_hrus self ->
  exists t,
    get_template self = Return t
    /\ gen_node self con cgu ∈ nodes t
    /\ model_for (cg self) [con; cgu] = Return (model_type (gen_node self con cgu))
    /\ incoming t (gen_node self con cgu) "quickflow"
       = [mkLink (scale_node hru "Quickflow") "outflow" (gen_node self con cgu) "quickflow"]
    /\ incoming t (gen_node self con cgu) "baseflow"
       = [mkLink (scale_node hru "Baseflow") "outflow" (gen_node self con cgu) "baseflow"]
    /\ outgoing t (gen_node self con cgu) "totalLoad"
       = [mkLink (gen_node self con cgu) "totalLoad"
                 (transport_node self con) "lateralLoad"].
Proof.
  intros Hwf Hok Hhru Hcon Hcgu.
  pose proof (get_template_char self) as Hchar. rewrite Hok in Hchar.
  exists (template_of self). split_and!.
  - done.
  - by apply (gen_node_in self hru).
  - by apply (resolvable_cg self Hok hru).
  - by apply incoming_gen_quickflow.
  - by apply incoming_gen_baseflow.
  - by apply (outgoing_gen_totalLoad self Hwf hru).
Qed.

Lemma get_template_generation_links_witness :
  exists t,
    get_template mixed_catchment = Return t
    /\ length (incoming t (gen_node mixed_catchment "N" "Gum") "quickflow") = 1
    /\ length (outgoing t (gen_node mixed_catchment "N" "Gum") "totalLoad") = 1.
Proof.
  destruct (get_template_generation_links mixed_catchment "Forest" "N" "Gum")
    as (t & Ht & _ & _ & Hq & _ & Hload).
  - apply well_formed_holds. vm_compute. reflexivity.
  - vm_compute. reflexivity.
  - apply list_elem_of_In. left. reflexivity.
  - apply list_elem_of_In. left. reflexivity.
  - apply list_elem_of_In. right; right; left. reflexivity.
  - exists t. split; [exact Ht|]. split.
    + exact (f_equal length Hq).
    + exact (f_equal length Hload).
Defined.
